(** * PV-Power-Predictor: a shallow embedding of the prediction back end

    The development follows the Python modules of the back end:
    - [model_handler.py]   ([EnsembleModel], [PVModelHandler]),
    - [nasa_power_client.py] ([NASAPowerGEOSITClient]),
    - [scrape_nasa_data]   (the data source of the dashboard),
    - [app.py]             (the Flask end points).

    Conventions of the embedding.
    - A numpy / pandas float is a [cell]: an exact rational ([Qc]) or one of
      the three IEEE specials [PInf], [NInf], [NaN].  Rounding and overflow
      of binary64 arithmetic are not modelled; the propagation rules of the
      specials are.
    - A Python [dict] is an association list in insertion order (iteration
      order matters for the blend and for which [KeyError] is raised first).
    - A Python call that may raise returns a [pyres]: [Ok v] or [Raise e].
    - Library calls whose code is not part of the repository (a fitted
      regressor's [predict], [requests.get], [pickle.load]) are parameters
      of the model: records of functions or the outcome they produce. *)

From Stdlib Require Import ZArith QArith Qcanon List String Ascii Bool Lia.
From Stdlib Require Import Qround DecimalString Permutation.
Import ListNotations.

#[local] Set Warnings "-register-all".

Local Open Scope string_scope.
Local Open Scope list_scope.

(* ================================================================== *)
(** * Floats with NaN and infinities *)
(* ================================================================== *)

Module Float.

Inductive cell : Type :=
| Fin (q : Qc)
| PInf
| NInf
| NaN.

Definition q0 : Qc := Q2Qc 0.
Definition qz (z : Z) : Qc := Q2Qc (inject_Z z).
Definition qn (n : nat) : Qc := qz (Z.of_nat n).
(** [qd n d] is the rational n/d. *)
Definition qd (n : Z) (d : positive) : Qc := Q2Qc (Qmake n d).

Definition isnan (c : cell) : bool :=
  match c with NaN => true | _ => false end.

Definition isinf (c : cell) : bool :=
  match c with PInf | NInf => true | _ => false end.

Definition isfinite (c : cell) : bool :=
  match c with Fin _ => true | _ => false end.

Definition Qc_ltb (a b : Qc) : bool :=
  match (a ?= b)%Qc with Lt => true | _ => false end.

Definition Qc_leb (a b : Qc) : bool :=
  match (a ?= b)%Qc with Gt => false | _ => true end.

(** IEEE addition on the idealised domain. *)
Definition add (a b : cell) : cell :=
  match a, b with
  | NaN, _ | _, NaN => NaN
  | PInf, NInf | NInf, PInf => NaN
  | PInf, _ | _, PInf => PInf
  | NInf, _ | _, NInf => NInf
  | Fin x, Fin y => Fin (x + y)%Qc
  end.

Definition neg (a : cell) : cell :=
  match a with
  | Fin x => Fin (- x)%Qc
  | PInf => NInf
  | NInf => PInf
  | NaN => NaN
  end.

(** Sign of an infinity scaled by a finite factor: 0 * inf is NaN. *)
Definition scale_inf (pos : bool) (x : Qc) : cell :=
  match (x ?= q0)%Qc with
  | Eq => NaN
  | Gt => if pos then PInf else NInf
  | Lt => if pos then NInf else PInf
  end.

Definition mul (a b : cell) : cell :=
  match a, b with
  | NaN, _ | _, NaN => NaN
  | Fin x, Fin y => Fin (x * y)%Qc
  | Fin x, PInf | PInf, Fin x => scale_inf true x
  | Fin x, NInf | NInf, Fin x => scale_inf false x
  | PInf, PInf | NInf, NInf => PInf
  | PInf, NInf | NInf, PInf => NInf
  end.

(** Division of a sum by a positive count (the only division of the
    handler: [the_sum / count] inside pandas' mean). *)
Definition div_count (s : cell) (n : nat) : cell :=
  match s with
  | Fin x => Fin (x / qn n)%Qc
  | other => other
  end.

(** Comparisons: every comparison with NaN is [false]. *)
Definition leb (a b : cell) : bool :=
  match a, b with
  | NaN, _ | _, NaN => false
  | NInf, _ => true
  | _, PInf => true
  | PInf, _ => false
  | _, NInf => false
  | Fin x, Fin y => Qc_leb x y
  end.

Definition ltb (a b : cell) : bool :=
  match a, b with
  | NaN, _ | _, NaN => false
  | PInf, _ => false
  | _, NInf => false
  | NInf, _ => true
  | _, PInf => true
  | Fin x, Fin y => Qc_ltb x y
  end.

(** [np.maximum(x, 0)]: a NaN operand is returned as it is. *)
Definition maximum0 (c : cell) : cell :=
  match c with
  | NaN => NaN
  | PInf => PInf
  | NInf => Fin q0
  | Fin x => if Qc_ltb x q0 then Fin q0 else Fin x
  end.

(** [x >= 0] as Python evaluates it. *)
Definition nonneg (c : cell) : bool := leb (Fin q0) c.

End Float.
Import Float.

(* ================================================================== *)
(** * Exceptions and results *)
(* ================================================================== *)

Module Py.

(** The exception classes the back end raises or catches.  Every one of
    them is a subclass of [Exception]; [ValueError] is the only class the
    end points single out. *)
Inductive exn : Type :=
| FileNotFoundError (msg : string)
| UnpicklingError (msg : string)
| ValueError (msg : string)
| TypeError (msg : string)
| KeyError (key : string)
| AttributeError (msg : string)
| RuntimeError (msg : string)
| StopIteration
| ModelError (msg : string)       (* raised inside a fitted regressor *)
| RequestException (msg : string) (* requests.exceptions.RequestException *)
| Exception_ (msg : string).      (* a plain Exception(...) *)

(** [str(e)] *)
Definition exn_str (e : exn) : string :=
  match e with
  | FileNotFoundError m | UnpicklingError m | ValueError m | TypeError m
  | AttributeError m | RuntimeError m | ModelError m | RequestException m
  | Exception_ m => m
  | KeyError k => String "'"%char (String.append k "'")
  | StopIteration => EmptyString
  end.

Definition is_ValueError (e : exn) : bool :=
  match e with ValueError _ => true | _ => false end.

Inductive pyres (A : Type) : Type :=
| Ok (a : A)
| Raise (e : exn).
Arguments Ok {A} a.
Arguments Raise {A} e.

Definition bind {A B} (r : pyres A) (k : A -> pyres B) : pyres B :=
  match r with
  | Ok a => k a
  | Raise e => Raise e
  end.

Definition is_ok {A} (r : pyres A) : bool :=
  match r with Ok _ => true | Raise _ => false end.

End Py.
Import Py.

Notation "x <- c ;; k" := (Py.bind c (fun x => k))
  (at level 61, c at next level, right associativity).

(** Lookup in a dict (association list in insertion order). *)
Fixpoint dict_get {V} (d : list (string * V)) (k : string) : option V :=
  match d with
  | [] => None
  | (k', v) :: d' => if String.eqb k' k then Some v else dict_get d' k
  end.

Definition dict_has {V} (d : list (string * V)) (k : string) : bool :=
  match dict_get d k with Some _ => true | None => false end.

Definition dict_keys {V} (d : list (string * V)) : list string := map fst d.

(* ================================================================== *)
(** * Data frames *)
(* ================================================================== *)

Module Frame.

Record column : Type := mkCol { cname : string; cvals : list cell }.

(** A numeric DataFrame: the index labels (dates, as text) and the
    columns in order. *)
Record DataFrame : Type := mkDF { index : list string; columns : list column }.

(** [len(df)] *)
Definition nrows (df : DataFrame) : nat := List.length (index df).
(** [df.shape[1]] *)
Definition ncols (df : DataFrame) : nat := List.length (columns df).
(** [df.empty]: some axis has length 0. *)
Definition empty (df : DataFrame) : bool :=
  (nrows df =? 0)%nat || (ncols df =? 0)%nat.

Definition well_formed (df : DataFrame) : Prop :=
  Forall (fun c => List.length (cvals c) = nrows df) (columns df).

(** pandas' [nansum]: NaN cells count as 0; infinities take part. *)
Definition nansum (l : list cell) : cell :=
  fold_left (fun acc c => if isnan c then acc else add acc c) l (Fin q0).

Definition count_valid (l : list cell) : nat :=
  List.length (filter (fun c => negb (isnan c)) l).

(** [Series.mean()] with the default [skipna=True]. *)
Definition mean (l : list cell) : cell :=
  match count_valid l with
  | O => NaN
  | S _ as n => div_count (nansum l) n
  end.

(** [Series.fillna(v)] *)
Definition fillna (v : cell) (l : list cell) : list cell :=
  map (fun c => if isnan c then v else c) l.

(** [df.fillna(df.mean())]: every column is filled with its own mean. *)
Definition fillna_mean_col (c : column) : column :=
  mkCol (cname c) (fillna (mean (cvals c)) (cvals c)).

Definition fillna_mean (df : DataFrame) : DataFrame :=
  mkDF (index df) (map fillna_mean_col (columns df)).

Definition inf_to_nan (c : cell) : cell := if isinf c then NaN else c.

(** [df.replace([np.inf, -np.inf], np.nan)] *)
Definition replace_inf (df : DataFrame) : DataFrame :=
  mkDF (index df)
       (map (fun c => mkCol (cname c) (map inf_to_nan (cvals c))) (columns df)).

(** [np.isinf(df).any().any()] *)
Definition any_inf (df : DataFrame) : bool :=
  existsb (fun c => existsb isinf (cvals c)) (columns df).

(** [df.isnull().sum().sum()] *)
Definition nan_count (df : DataFrame) : nat :=
  fold_right (fun c n => (List.length (filter isnan (cvals c)) + n)%nat) 0%nat
             (columns df).

End Frame.
Import Frame.

(* ================================================================== *)
(** * model_handler.py: numpy values, regressors, pickled objects *)
(* ================================================================== *)

Module Numpy.

(** What an arithmetic expression of the handler can evaluate to: a
    scalar (Python's [0], the start value of [sum]) or a 1-D array. *)
Inductive ndval : Type :=
| Scalar (c : cell)
| Arr (l : list cell).

Fixpoint zip_with (f : cell -> cell -> cell) (a b : list cell) : list cell :=
  match a, b with
  | x :: a', y :: b' => f x y :: zip_with f a' b'
  | _, _ => []
  end.

Definition broadcast_error : exn :=
  ValueError "operands could not be broadcast together".

(** [a + b] with numpy's broadcasting of 0-d and 1-d operands: equal
    lengths add pointwise, a length-1 array is stretched, any other pair
    of lengths raises. *)
Definition nd_add (a b : ndval) : pyres ndval :=
  match a, b with
  | Scalar x, Scalar y => Ok (Scalar (add x y))
  | Scalar x, Arr l => Ok (Arr (map (add x) l))
  | Arr l, Scalar y => Ok (Arr (map (fun v => add v y) l))
  | Arr l1, Arr l2 =>
      if (List.length l1 =? List.length l2)%nat then Ok (Arr (zip_with add l1 l2))
      else match l1, l2 with
           | [x], _ => Ok (Arr (map (add x) l2))
           | _, [y] => Ok (Arr (map (fun v => add v y) l1))
           | _, _ => Raise broadcast_error
           end
  end.

(** [w * array] for a scalar weight. *)
Definition nd_scale (w : cell) (l : list cell) : ndval := Arr (map (mul w) l).

(** [np.maximum(v, 0)] *)
Definition nd_maximum0 (v : ndval) : ndval :=
  match v with
  | Scalar c => Scalar (maximum0 c)
  | Arr l => Arr (map maximum0 l)
  end.

(** [len(v)]: a 0-d value has no length. *)
Definition nd_len (v : ndval) : pyres nat :=
  match v with
  | Scalar _ => Raise (TypeError "len() of unsized object")
  | Arr l => Ok (List.length l)
  end.

End Numpy.
Import Numpy.

Module Model.

(** A fitted regressor: an opaque object with a [predict] method.  Its
    code is scikit-learn's, so it is a parameter: any function from the
    feature table to an array or an exception. *)
Record regressor : Type := mkReg {
  reg_type : string;                       (* type(m).__name__ *)
  n_features_in_ : option nat;             (* the attribute, when present *)
  reg_predict : DataFrame -> pyres (list cell)
}.

(** The objects a pickle of this project can hold. *)
Inductive pyobj : Type :=
| PModel (m : regressor)                   (* has a [predict] attribute *)
| PNum (c : cell)
| PDict (kvs : list (string * pyobj))
| POther (ty : string).                    (* anything else, no [predict] *)

Definition has_predict (o : pyobj) : bool :=
  match o with PModel _ => true | _ => false end.

(** ** class EnsembleModel *)

Record EnsembleModel : Type := mkEnsemble {
  models : list (string * pyobj);
  weights : pyobj;
  model_names : list string
}.

(** [EnsembleModel.__init__]: [list(self.models.keys())] needs a dict. *)
Definition EnsembleModel_init (ensemble_dict : list (string * pyobj))
  : pyres EnsembleModel :=
  match dict_get ensemble_dict "models", dict_get ensemble_dict "weights" with
  | None, _ => Raise (KeyError "models")
  | _, None => Raise (KeyError "weights")
  | Some (PDict ms), Some ws => Ok (mkEnsemble ms ws (dict_keys ms))
  | Some _, Some _ => Raise (AttributeError "object has no attribute 'keys'")
  end.

(** [model.predict(X_array)] on a value of the model mapping. *)
Definition call_predict (o : pyobj) (X : DataFrame) : pyres (list cell) :=
  match o with
  | PModel m => reg_predict m X
  | _ => Raise (AttributeError "object has no attribute 'predict'")
  end.

(** The [for name, model in self.models.items()] loop: the predictions of
    all base models, in dict order; the first exception ends the loop. *)
Fixpoint collect_predictions (ms : list (string * pyobj)) (X : DataFrame)
  : pyres (list (string * list cell)) :=
  match ms with
  | [] => Ok []
  | (name, o) :: ms' =>
      p <- call_predict o X ;;
      rest <- collect_predictions ms' X ;;
      Ok ((name, p) :: rest)
  end.

(** [self.weights[name]] *)
Definition weight_of (ws : pyobj) (name : string) : pyres pyobj :=
  match ws with
  | PDict kvs =>
      match dict_get kvs name with
      | Some w => Ok w
      | None => Raise (KeyError name)
      end
  | _ => Raise (TypeError "object is not subscriptable")
  end.

(** [self.weights[name] * predictions[name]] *)
Definition weighted_term (ws : pyobj) (predictions : list (string * list cell))
           (name : string) : pyres ndval :=
  w <- weight_of ws name ;;
  match dict_get predictions name with
  | None => Raise (KeyError name)
  | Some p =>
      match w with
      | PNum c => Ok (nd_scale c p)
      | _ => Raise (TypeError "unsupported operand type(s) for *")
      end
  end.

(** [sum(generator)]: a left fold that starts from the integer 0 and
    evaluates the terms lazily, one per name. *)
Fixpoint sum_terms (ws : pyobj) (predictions : list (string * list cell))
         (names : list string) (acc : ndval) : pyres ndval :=
  match names with
  | [] => Ok acc
  | name :: names' =>
      t <- weighted_term ws predictions name ;;
      acc' <- nd_add acc t ;;
      sum_terms ws predictions names' acc'
  end.

(** [EnsembleModel.predict] *)
Definition ensemble_predict (e : EnsembleModel) (X : DataFrame) : pyres ndval :=
  predictions <- collect_predictions (models e) X ;;
  sum_terms (weights e) predictions (model_names e) (Scalar (Fin q0)).

(** The property [EnsembleModel.n_features_in_]:
    [next(iter(self.models.values()))] raises StopIteration on an empty
    mapping. *)
Definition ensemble_n_features (e : EnsembleModel) : pyres (option nat) :=
  match models e with
  | [] => Raise StopIteration
  | (_, PModel m) :: _ => Ok (n_features_in_ m)
  | _ :: _ => Ok None
  end.

Record ensemble_info_t : Type := mkEInfo {
  base_models : list string;
  info_weights : pyobj;
  n_models : nat
}.

Definition get_model_info (e : EnsembleModel) : ensemble_info_t :=
  mkEInfo (dict_keys (models e)) (weights e) (List.length (models e)).

End Model.
Import Model.

(* ================================================================== *)
(** * model_handler.py: class PVModelHandler *)
(* ================================================================== *)

Module Handler.

(** [self.model]: the loaded object that answers [predict]. *)
Inductive active : Type :=
| ADirect (m : regressor)
| AEnsemble (e : EnsembleModel).

Record model_info_t : Type := mkInfo {
  model_type : string;
  feature_count : option nat;
  info_ensemble : option ensemble_info_t
}.

Record PVModelHandler : Type := mkHandler {
  model_path : string;
  model : option active;
  model_info : option model_info_t;
  is_loaded : bool;
  ensemble_info : option ensemble_info_t
}.

Definition set_model (h : PVModelHandler) (m : option active) : PVModelHandler :=
  mkHandler (model_path h) m (model_info h) (is_loaded h) (ensemble_info h).
Definition set_is_loaded (h : PVModelHandler) (b : bool) : PVModelHandler :=
  mkHandler (model_path h) (model h) (model_info h) b (ensemble_info h).
Definition set_ensemble_info (h : PVModelHandler) (i : option ensemble_info_t)
  : PVModelHandler :=
  mkHandler (model_path h) (model h) (model_info h) (is_loaded h) i.
Definition set_model_info (h : PVModelHandler) (i : option model_info_t)
  : PVModelHandler :=
  mkHandler (model_path h) (model h) i (is_loaded h) (ensemble_info h).

(** What [os.path.exists] and [pickle.load] find at [model_path]. *)
Inductive file_state : Type :=
| NoFile
| BadPickle (msg : string)
| Pickled (o : pyobj).

(** A method body that mutates [self] and may raise: the handler after
    the body ran together with its outcome. *)
Definition method (A : Type) : Type := PVModelHandler * pyres A.

(** [_extract_model_info] *)
Definition _extract_model_info (h : PVModelHandler) : method unit :=
  match model h with
  | None => (h, Ok tt)
  | Some (AEnsemble e) =>
      match ensemble_n_features e with
      | Raise ex => (h, Raise ex)
      | Ok fc =>
          (set_model_info h (Some (mkInfo "WeightedEnsemble" fc (ensemble_info h))),
           Ok tt)
      end
  | Some (ADirect m) =>
      (set_model_info h
         (Some (mkInfo (reg_type m) (n_features_in_ m) (ensemble_info h))),
       Ok tt)
  end.

(** The weights print loop of [load_model]:
    [for name, weight in loaded_object['weights'].items(): f"{weight:.4f}"]. *)
Definition print_weights (ws : pyobj) : pyres unit :=
  match ws with
  | PDict kvs =>
      if forallb (fun kv => match snd kv with PNum _ => true | _ => false end) kvs
      then Ok tt
      else Raise (TypeError "unsupported format string passed to __format__")
  | _ => Raise (AttributeError "object has no attribute 'items'")
  end.

(** The search through [possible_keys] for a value with [predict]. *)
Definition possible_keys : list string :=
  ["model"; "trained_model"; "clf"; "regressor"; "estimator"].

Fixpoint find_model (keys : list string) (d : list (string * pyobj))
  : option regressor :=
  match keys with
  | [] => None
  | key :: keys' =>
      match dict_get d key with
      | Some (PModel m) => Some m
      | _ => find_model keys' d
      end
  end.

(** The body of the [try] block of [load_model]. *)
Definition load_body (fs : file_state) (h : PVModelHandler) : method unit :=
  match fs with
  | NoFile => (h, Raise (FileNotFoundError "Model file not found"))
  | BadPickle msg => (h, Raise (UnpicklingError msg))
  | Pickled loaded_object =>
      let finish (h1 : PVModelHandler) : method unit :=
        _extract_model_info (set_is_loaded h1 true) in
      match loaded_object with
      | PModel m => finish (set_model h (Some (ADirect m)))
      | PDict d =>
          if dict_has d "models" && dict_has d "weights" then
            match EnsembleModel_init d with
            | Raise ex => (h, Raise ex)
            | Ok e =>
                let h1 := set_model h (Some (AEnsemble e)) in
                let h2 := set_ensemble_info h1 (Some (get_model_info e)) in
                match print_weights (weights e) with
                | Raise ex => (h2, Raise ex)
                | Ok _ => finish h2
                end
            end
          else
            match find_model possible_keys d with
            | Some m => finish (set_model h (Some (ADirect m)))
            | None =>
                (h, Raise (ValueError "No model with 'predict' method found"))
            end
      | _ => (h, Raise (ValueError "Loaded object type is not supported."))
      end
  end.

(** [load_model]: the [except Exception] handler clears the model and the
    flag, then re-raises. *)
Definition load_model (fs : file_state) (h : PVModelHandler) : method unit :=
  match load_body fs h with
  | (h', Ok _) => (h', Ok tt)
  | (h', Raise ex) => (set_is_loaded (set_model h' None) false, Raise ex)
  end.

(** [reload_model] *)
Definition reload_model (fs : file_state) (h : PVModelHandler) : method unit :=
  load_model fs h.

(** [__init__]: fresh attributes, then [load_model]. *)
Definition init (path : string) (fs : file_state) : method unit :=
  load_model fs (mkHandler path None None false None).

(** [validate_input_data]: raises on an empty table; the two warnings
    are printed, never raised. *)
Definition validate_input_data (h : PVModelHandler) (df : DataFrame)
  : pyres (list string) :=
  if empty df then Raise (ValueError "Input data is empty")
  else
    let w1 :=
      match model_info h with
      | Some i =>
          match feature_count i with
          | Some (S _ as expected) =>
              if (ncols df =? expected)%nat then [] else ["Feature count mismatch"]
          | _ => []
          end
      | None => []
      end in
    let w2 := if (0 <? nan_count df)%nat then ["Found NaN values in input data"]
              else [] in
    Ok (w1 ++ w2).

(** [preprocess_data] *)
Definition preprocess_data (df : DataFrame) : DataFrame :=
  let df_processed := fillna_mean df in
  if any_inf df_processed
  then fillna_mean (replace_inf df_processed)
  else df_processed.

(** [self.model.predict(df_processed)] *)
Definition model_predict (a : active) (X : DataFrame) : pyres ndval :=
  match a with
  | ADirect m => p <- reg_predict m X ;; Ok (Arr p)
  | AEnsemble e => ensemble_predict e X
  end.

(** The report printed after a successful prediction reads
    [self.model_info.get(...)] and, for an ensemble,
    [self.ensemble_info['base_models']]; both are set by every successful
    [load_model]. *)
Definition report_info (h : PVModelHandler) (a : active) : pyres unit :=
  match model_info h with
  | None => Raise (AttributeError "'NoneType' object has no attribute 'get'")
  | Some _ =>
      match a, ensemble_info h with
      | AEnsemble _, None =>
          Raise (TypeError "'NoneType' object is not subscriptable")
      | _, _ => Ok tt
      end
  end.

(** [predict(self, df)].  The handler is only read. *)
Definition predict (h : PVModelHandler) (df : DataFrame) : pyres (list cell) :=
  if negb (is_loaded h) then Raise (RuntimeError "Model is not loaded")
  else
    match model h with
    | None => Raise (RuntimeError "Model object is None")
    | Some a =>
        _ <- validate_input_data h df ;;
        let df_processed := preprocess_data df in
        raw <- model_predict a df_processed ;;
        match nd_maximum0 raw with
        | Scalar _ => Raise (TypeError "len() of unsized object")
        | Arr predictions =>
            if negb (List.length predictions =? nrows df)%nat
            then Raise (ValueError "Prediction length mismatch")
            else
              _ <- report_info h a ;;
              Ok predictions
        end
    end.

(** A call [handler.predict(df, **kwargs)] as Python binds it: the
    signature is [predict(self, df)], so any keyword argument is
    rejected before the body runs. *)
Definition predict_call (h : PVModelHandler) (df : DataFrame)
           (kwargs : list (string * cell)) : pyres (list cell) :=
  match kwargs with
  | [] => predict h df
  | (k, _) :: _ =>
      Raise (TypeError
               (String.append
                  "PVModelHandler.predict() got an unexpected keyword argument '"
                  (String.append k "'")))
  end.

(** [calculate_financial_savings] on an array. *)
Definition calculate_financial_savings (predictions_kwh : list cell)
           (mad_per_kwh : cell) : list cell :=
  map (fun p => mul p mad_per_kwh) predictions_kwh.

(** [get_prediction_summary]: the counting and summing entries (the
    minimum, maximum and standard deviation entries are left out). *)
Record summary_t : Type := mkSummary {
  total_days : nat;
  total_production_kwh : cell;
  total_savings_mad : cell;
  conversion_rate_mad_per_kwh : cell
}.

Definition np_sum (l : list cell) : cell := fold_left add l (Fin q0).

Definition get_prediction_summary (predictions_kwh : list cell)
           (mad_per_kwh : cell) : summary_t :=
  let savings_mad := calculate_financial_savings predictions_kwh mad_per_kwh in
  mkSummary (List.length predictions_kwh) (np_sum predictions_kwh)
            (np_sum savings_mad) mad_per_kwh.

(** ** validate_model_health *)

Record health_report : Type := mkHealth {
  healthy : bool;
  test_prediction : option cell;
  message : option string;
  error : option string
}.

Definition unhealthy (msg : string) : health_report :=
  mkHealth false None None (Some msg).

Definition one_row (name : string) (q : Qc) : column := mkCol name [Fin q].

(** The five fixed probe columns, one row each. *)
Definition base_test_columns : list column :=
  [ one_row "ALLSKY_SFC_SW_DWN" (qd 41 2);
    one_row "T2M" (qz 25);
    one_row "CLOUD_AMT" (qz 30);
    one_row "WS2M" (qd 7 2);
    one_row "RH2M" (qz 60) ].

(** The [while len(test_data.columns) < expected_features] loop: [k]
    more columns named [dummy_feature_<current width>]. *)
Fixpoint add_dummies (k : nat) (cols : list column) : list column :=
  match k with
  | O => cols
  | S k' =>
      add_dummies k'
        (cols ++ [one_row (String.append "dummy_feature_"
                             (DecimalString.NilEmpty.string_of_uint
                                (Nat.to_uint (List.length cols))))
                          (qz 1)])
  end.

Definition test_data (h : PVModelHandler) : DataFrame :=
  let expected :=
    match model_info h with
    | Some i => match feature_count i with Some n => n | None => 0%nat end
    | None => 0%nat
    end in
  mkDF ["0"] (add_dummies (expected - List.length base_test_columns)
                          base_test_columns).

Definition validate_model_health (h : PVModelHandler) : health_report :=
  if negb (is_loaded h) then unhealthy "Model not loaded"
  else
    match model h with
    | None => unhealthy "Model object is None"
    | Some _ =>
        match predict h (test_data h) with
        | Raise e =>
            unhealthy (String.append "Model validation failed: " (exn_str e))
        | Ok test_prediction =>
            match test_prediction with
            | [p] =>
                if negb (isnan p)
                then mkHealth true (Some p) (Some "Model validation successful")
                              None
                else unhealthy "Invalid test prediction"
            | _ => unhealthy "Invalid test prediction"
            end
        end
    end.

End Handler.

(* ================================================================== *)
(** * Dates: [datetime.strptime], ordinals and differences *)
(* ================================================================== *)

Module Dates.

Local Open Scope Z_scope.

Definition between (lo hi c : ascii) : bool :=
  (nat_of_ascii lo <=? nat_of_ascii c)%nat && (nat_of_ascii c <=? nat_of_ascii hi)%nat.

Definition is_digit (c : ascii) : bool := between "0" "9" c.

Definition digit (c : ascii) : Z := Z.of_nat (nat_of_ascii c) - 48.

(** One alternative of a regular expression group: the value it denotes
    and the text left after it. *)
Definition alt : Type := (Z * string)%type.

(** Two-character and one-character alternatives. *)
Definition alt2 (p1 p2 : ascii -> bool) (val : ascii -> ascii -> Z) (s : string)
  : list alt :=
  match s with
  | String a (String b r) => if p1 a && p2 b then [(val a b, r)] else []
  | _ => []
  end.

Definition alt1 (p : ascii -> bool) (s : string) : list alt :=
  match s with
  | String a r => if p a then [(digit a, r)] else []
  | _ => []
  end.

Definition two_digits (a b : ascii) : Z := 10 * digit a + digit b.

(** [%m] is the group [1[0-2]|0[1-9]|[1-9]]: the alternatives that match
    a prefix of [s], in the order the regex engine tries them. *)
Definition alts_m (s : string) : list alt :=
  alt2 (Ascii.eqb "1") (between "0" "2") two_digits s
  ++ alt2 (Ascii.eqb "0") (between "1" "9") two_digits s
  ++ alt1 (between "1" "9") s.

(** [%d] is the group [3[0-1]|[1-2]\d|0[1-9]|[1-9]| [1-9]]. *)
Definition alts_d (s : string) : list alt :=
  alt2 (Ascii.eqb "3") (between "0" "1") two_digits s
  ++ alt2 (between "1" "2") is_digit two_digits s
  ++ alt2 (Ascii.eqb "0") (between "1" "9") two_digits s
  ++ alt1 (between "1" "9") s
  ++ alt2 (Ascii.eqb " ") (between "1" "9") (fun _ b => digit b) s.

(** [%Y] is [\d\d\d\d]. *)
Definition match_Y (s : string) : option alt :=
  match s with
  | String a (String b (String c (String d r))) =>
      if is_digit a && is_digit b && is_digit c && is_digit d
      then Some (1000 * digit a + 100 * digit b + 10 * digit c + digit d, r)
      else None
  | _ => None
  end.

(** A literal separator of the format ([-] in [%Y-%m-%d], none in
    [%Y%m%d]). *)
Definition skip (sep : option ascii) (s : string) : option string :=
  match sep with
  | None => Some s
  | Some c =>
      match s with
      | String a r => if Ascii.eqb a c then Some r else None
      | EmptyString => None
      end
  end.

(** [format_regex.match(data_string)]: the first way, in backtracking
    order, to match year, month and day at the start of the text. *)
Definition regex_match (sep : option ascii) (s : string)
  : option (Z * Z * Z * string) :=
  match match_Y s with
  | None => None
  | Some (y, r0) =>
      match skip sep r0 with
      | None => None
      | Some r1 =>
          hd_error
            (flat_map
               (fun mr : alt =>
                  match skip sep (snd mr) with
                  | None => []
                  | Some r3 =>
                      map (fun dr : alt => (y, fst mr, fst dr, snd dr)) (alts_d r3)
                  end)
               (alts_m r1))
      end
  end.

Definition is_leap (y : Z) : bool :=
  (y mod 4 =? 0) && (negb (y mod 100 =? 0) || (y mod 400 =? 0)).

Definition days_in_month (y m : Z) : Z :=
  if m =? 2 then (if is_leap y then 29 else 28)
  else if (m =? 4) || (m =? 6) || (m =? 9) || (m =? 11) then 30
  else 31.

Definition days_before_year (year : Z) : Z :=
  let y := year - 1 in y * 365 + y / 4 - y / 100 + y / 400.

Definition days_before_month_table (m : Z) : Z :=
  match m with
  | 1 => 0 | 2 => 31 | 3 => 59 | 4 => 90 | 5 => 120 | 6 => 151
  | 7 => 181 | 8 => 212 | 9 => 243 | 10 => 273 | 11 => 304 | _ => 334
  end.

Definition days_before_month (y m : Z) : Z :=
  days_before_month_table m + (if (2 <? m) && is_leap y then 1 else 0).

(** [_ymd2ord]: 0001-01-01 is day 1. *)
Definition ymd2ord (y m d : Z) : Z :=
  days_before_year y + days_before_month y m + d.

(** A naive [datetime]: microseconds since the start of ordinal day 0. *)
Definition datetime : Type := Z.

Definition us_per_day : Z := 86400 * 1000000.

Definition of_ymd (y m d : Z) : datetime := ymd2ord y m d * us_per_day.

(** [timedelta(days=n)] *)
Definition days (n : Z) : Z := n * us_per_day.

(** [(a - b).days]: timedelta keeps 0 <= seconds, so days is the floor. *)
Definition delta_days (a b : datetime) : Z := (a - b) / us_per_day.

(** [datetime.strptime(s, fmt)] for the formats [%Y%m%d] ([sep = None])
    and [%Y-%m-%d] ([sep = Some "-"]) on ASCII text. *)
Definition strptime (sep : option ascii) (s : string) : pyres datetime :=
  match regex_match sep s with
  | None => Raise (ValueError "time data does not match format")
  | Some (y, m, d, rest) =>
      match rest with
      | String _ _ => Raise (ValueError "unconverted data remains")
      | EmptyString =>
          if y =? 0 then Raise (ValueError "year 0 is out of range")
          else if days_in_month y m <? d
               then Raise (ValueError "day is out of range for month")
               else Ok (of_ymd y m d)
      end
  end.

End Dates.

(* ================================================================== *)
(** * nasa_power_client.py: class NASAPowerGEOSITClient *)
(* ================================================================== *)

Module Client.

Import Dates.

Record NASAPowerGEOSITClient : Type := mkClient {
  min_date : datetime;
  max_date : datetime
}.

(** [__init__] at the instant [now]. *)
Definition init (now : datetime) : NASAPowerGEOSITClient :=
  mkClient (of_ymd 2020 1 1) (now - days 3)%Z.

Definition validate_coordinates (latitude longitude : cell) : pyres bool :=
  if negb (leb (Fin (qz (-90))) latitude && leb latitude (Fin (qz 90)))
  then Raise (ValueError "Latitude must be between -90 and 90")
  else if negb (leb (Fin (qz (-180))) longitude && leb longitude (Fin (qz 180)))
  then Raise (ValueError "Longitude must be between -180 and 180")
  else Ok true.

Definition warn_after_max : string := "GEOS-IT data may not be available after max_date".
Definition warn_recent : string := "GEOS-IT typically has a 3-4 day delay.".

(** [validate_dates], called at the instant [now]; the result carries the
    warnings issued through [warnings.warn]. *)
Definition validate_dates (self : NASAPowerGEOSITClient) (now : datetime)
           (start_date end_date : string) : pyres (list string) :=
  match strptime None start_date, strptime None end_date with
  | Ok start, Ok end_ =>
      if (end_ <? start)%Z
      then Raise (ValueError "Start date must be before end date")
      else if (start <? min_date self)%Z
      then Raise (ValueError "GEOS-IT data starts from 2020-01-01")
      else
        let w1 := if (max_date self <? end_)%Z then [warn_after_max] else [] in
        let days_ago := delta_days now end_ in
        let w2 := if (days_ago <? 3)%Z then [warn_recent] else [] in
        Ok (w1 ++ w2)
  | _, _ => Raise (ValueError "Dates must be in YYYYMMDD format")
  end.

(** [build_request_url], up to the text of the URL: the two validations. *)
Definition build_request_url (self : NASAPowerGEOSITClient) (now : datetime)
           (latitude longitude : cell) (start_date end_date : string)
  : pyres (list string) :=
  _ <- validate_coordinates latitude longitude ;;
  validate_dates self now start_date end_date.

(** ** fetch_data *)

(** The decoded body of a provider response, as far as [fetch_data] reads it. *)
Record api_response : Type := mkResp {
  messages : option (list string);
  header_source : option string;
  n_parameters : nat
}.

(** What one pass through [requests.get], [raise_for_status] and
    [response.json()] produces: a body, or one of the
    [requests.exceptions.RequestException] subclasses. *)
Inductive transport_error : Type :=
| Timeout
| HTTPError (status : Z)
| JSONDecodeError
| ConnectionError.

Definition transport_error_str (e : transport_error) : string :=
  match e with
  | Timeout => "Read timed out."
  | HTTPError _ => "HTTP Error"
  | JSONDecodeError => "Expecting value"
  | ConnectionError => "Connection aborted."
  end.

Inductive attempt_outcome : Type :=
| Failure (e : transport_error)
| Body (data : api_response).

(** The transport: the outcome of the request made at each attempt index. *)
Definition transport : Type := nat -> attempt_outcome.

Inductive event : Type :=
| EvWarn (msg : string)
| EvRequest (attempt : nat)
| EvSleep (seconds : Qc).

Definition to_lower_ascii (c : ascii) : ascii :=
  if between "A" "Z" c then ascii_of_nat (nat_of_ascii c + 32) else c.

Fixpoint lower (s : string) : string :=
  match s with
  | EmptyString => EmptyString
  | String c r => String (to_lower_ascii c) (lower r)
  end.

(** [needle in s] *)
Fixpoint contains (needle s : string) : bool :=
  String.prefix needle s ||
  match s with
  | EmptyString => false
  | String _ r => contains needle r
  end.

(** ['messages' in data and any('error' in msg.lower() ...)] *)
Definition has_api_error (data : api_response) : bool :=
  match messages data with
  | None => false
  | Some msgs => existsb (fun msg => contains "error" (lower msg)) msgs
  end.

Definition source_warning (data : api_response) : list event :=
  match header_source data with
  | Some source =>
      if negb (contains "geos" (lower source))
      then [EvWarn "Expected GEOS-IT source"] else []
  | None => []
  end.

Definition pow2 (n : nat) : Qc := qz (2 ^ Z.of_nat n).

Definition failed_after (max_retries : Z) (e : transport_error) : exn :=
  Exception_
    (String.append "Failed to fetch GEOS-IT data after "
       (String.append (DecimalString.NilZero.string_of_int (Z.to_int max_retries))
          (String.append " attempts: " (transport_error_str e)))).

(** The loop [for attempt in range(max_retries)], with [remaining]
    iterations left to run from index [attempt].  The result is what
    [fetch_data] returns or raises ([None] when the loop ends without a
    [return]) and the trace of requests and sleeps. *)
Fixpoint retry_loop (t : transport) (max_retries : Z) (retry_delay : Qc)
         (remaining attempt : nat) : pyres (option api_response) * list event :=
  match remaining with
  | O => (Ok None, [])
  | S remaining' =>
      match t attempt with
      | Body data =>
          if has_api_error data
          then (Raise (Exception_ "API Error"), [EvRequest attempt])
          else (Ok (Some data), EvRequest attempt :: source_warning data)
      | Failure e =>
          if (Z.of_nat attempt <? max_retries - 1)%Z then
            let wait_time := (retry_delay * pow2 attempt)%Qc in
            if Qc_ltb wait_time q0
            then (Raise (ValueError "sleep length must be non-negative"),
                  [EvRequest attempt])
            else
              let (res, tr) :=
                retry_loop t max_retries retry_delay remaining' (S attempt) in
              (res, EvRequest attempt :: EvSleep wait_time :: tr)
          else (Raise (failed_after max_retries e), [EvRequest attempt])
      end
  end.

(** [fetch_data]: validation inside [build_request_url], then the
    retry loop. *)
Definition fetch_data (self : NASAPowerGEOSITClient) (now : datetime)
           (t : transport) (latitude longitude : cell)
           (start_date end_date : string)
           (max_retries : Z) (retry_delay : Qc)
  : pyres (option api_response) * list event :=
  match build_request_url self now latitude longitude start_date end_date with
  | Raise e => (Raise e, [])
  | Ok ws =>
      let (res, tr) :=
        retry_loop t max_retries retry_delay (Z.to_nat max_retries) 0 in
      (res, map EvWarn ws ++ tr)
  end.

(** The number of requests in a trace. *)
Definition requests_made (tr : list event) : nat :=
  List.length (filter (fun e => match e with EvRequest _ => true | _ => false end) tr).

(** The sleeps of a trace, in order. *)
Definition sleeps (tr : list event) : list Qc :=
  flat_map (fun e => match e with EvSleep s => [s] | _ => [] end) tr.

End Client.

(* ================================================================== *)
(** * app.py: the end points *)
(* ================================================================== *)

Module App.

Import Dates Handler.

(** A numeric field of the JSON body as [float(data[key])] sees it. *)
Inductive field : Type :=
| Absent                 (* KeyError *)
| FNum (c : cell)
| FBadValue              (* text that is no number: ValueError *)
| FBadType.              (* null, list, object: TypeError *)

Record request_data : Type := mkReq {
  latitude : field;
  longitude : field;
  capacity : field;
  start_date : option string;
  end_date : option string
}.

Definition float_of (key : string) (f : field) : pyres cell :=
  match f with
  | Absent => Raise (KeyError key)
  | FNum c => Ok c
  | FBadValue => Raise (ValueError "could not convert string to float")
  | FBadType => Raise (TypeError "float() argument must be a string or a real number")
  end.

Definition text_of (key : string) (f : option string) : pyres string :=
  match f with
  | None => Raise (KeyError key)
  | Some s => Ok s
  end.

Record prediction_row : Type := mkRow {
  date : string;
  pv_production_kwh : cell;
  financial_savings_mad : cell
}.

Inductive body : Type :=
| ErrorBody (msg : string)
| SuccessBody (msg : string)
| PredictionBody (predictions : list prediction_row) (summary : summary_t)
                 (meta_capacity : cell).

Record response : Type := mkResponse { status : Z; payload : body }.

(** What the end point did outside itself. *)
Inductive effect : Type :=
| EvFetch (lat lon : cell) (start_date end_date : string)
| EvPredict (df : DataFrame).

(** [round(x, ndigits)] on exact values: to the nearest multiple of
    10^-ndigits, ties to even. *)
Definition round_half_even (x : Qc) : Z :=
  let f := Qfloor x in
  match (x - qz f ?= qd 1 2)%Qc with
  | Lt => f
  | Gt => (f + 1)%Z
  | Eq => if Z.even f then f else (f + 1)%Z
  end.

Definition round_ (ndigits : nat) (c : cell) : cell :=
  match c with
  | Fin x =>
      let scale := qz (10 ^ Z.of_nat ndigits) in
      Fin (qz (round_half_even (x * scale)%Qc) / scale)%Qc
  | other => other
  end.

Fixpoint zip3 (ds : list string) (ps ss : list cell) : list prediction_row :=
  match ds, ps, ss with
  | d :: ds', p :: ps', s :: ss' =>
      mkRow d (round_ 1 p) (round_ 1 s) :: zip3 ds' ps' ss'
  | _, _, _ => []
  end.

Definition mad_per_kwh : cell := Fin (qd 6 5).

(** [get_pv_data_for_dashboard] is a call into the data client and the
    network: a parameter of the end point. *)
Definition data_source : Type := cell -> cell -> string -> string -> pyres DataFrame.

Definition in_coordinates (latitude longitude : cell) : bool :=
  (leb (Fin (qz (-90))) latitude && leb latitude (Fin (qz 90)))
  && (leb (Fin (qz (-180))) longitude && leb longitude (Fin (qz 180))).

(** The part of the [try] block of [generate_predictions] after the
    date checks: fetch, predict, assemble.  The per-row weather values
    and the data-quality summary are left out of the response (neither
    can raise). *)
Definition serve (h : PVModelHandler) (fetch : data_source)
           (lat lon cap : cell) (start_date end_date : string)
  : pyres response * list effect :=
  let ev1 := EvFetch lat lon start_date end_date in
  match fetch lat lon start_date end_date with
  | Raise e => (Raise e, [ev1])
  | Ok df =>
      if empty df
      then (Ok (mkResponse 400
                  (ErrorBody "No NASA POWER data available for this location and date range")),
            [ev1])
      else
        match predict_call h df [("capacity", cap)] with
        | Raise e => (Raise e, [ev1; EvPredict df])
        | Ok predictions_kwh =>
            let financial_savings :=
              calculate_financial_savings predictions_kwh mad_per_kwh in
            let results := zip3 (index df) predictions_kwh financial_savings in
            let prediction_summary :=
              get_prediction_summary predictions_kwh mad_per_kwh in
            (Ok (mkResponse 200 (PredictionBody results prediction_summary cap)),
             [ev1; EvPredict df])
        end
  end.

(** [float(data.get('capacity', 1.0))] *)
Definition capacity_of (f : field) : pyres cell :=
  match f with
  | Absent => Ok (Fin (qz 1))
  | _ => float_of "capacity" f
  end.

(** The head of the [try] block of [generate_predictions]: reading the
    fields and the checks on coordinates and dates.  The result is the
    validated request, or the response of an early [return]. *)
Definition check_request (data : request_data)
  : pyres (cell * cell * cell * string * string + response) :=
  lat <- float_of "latitude" (latitude data) ;;
  lon <- float_of "longitude" (longitude data) ;;
  cap <- capacity_of (capacity data) ;;
  sd <- text_of "start_date" (start_date data) ;;
  ed <- text_of "end_date" (end_date data) ;;
  if negb (in_coordinates lat lon)
  then Ok (inr (mkResponse 400 (ErrorBody "Invalid coordinates")))
  else
    start_dt <- strptime (Some "-"%char) sd ;;
    end_dt <- strptime (Some "-"%char) ed ;;
    if (end_dt <=? start_dt)%Z
    then Ok (inr (mkResponse 400 (ErrorBody "Start date must be before end date")))
    else if (365 <? delta_days end_dt start_dt)%Z
    then Ok (inr (mkResponse 400 (ErrorBody "Date range cannot exceed 1 year")))
    else Ok (inl (lat, lon, cap, sd, ed)).

(** The [try] block of [generate_predictions]. *)
Definition generate_body (h : PVModelHandler) (fetch : data_source)
           (data : option request_data) : pyres response * list effect :=
  match data with
  | None => (Raise (TypeError "'NoneType' object is not subscriptable"), [])
  | Some data =>
      match check_request data with
      | Raise e => (Raise e, [])
      | Ok (inr resp) => (Ok resp, [])
      | Ok (inl (lat, lon, cap, sd, ed)) => serve h fetch lat lon cap sd ed
      end
  end.

(** [generate_predictions]: the guard on the global handler, the [try]
    block, and the two [except] clauses. *)
Definition generate_predictions (model_handler : option PVModelHandler)
           (fetch : data_source) (data : option request_data)
  : response * list effect :=
  match model_handler with
  | None => (mkResponse 500 (ErrorBody "Model not loaded"), [])
  | Some h =>
      if negb (is_loaded h)
      then (mkResponse 500 (ErrorBody "Model not loaded"), [])
      else
        match generate_body h fetch data with
        | (Ok resp, tr) => (resp, tr)
        | (Raise e, tr) =>
            if is_ValueError e
            then (mkResponse 400
                    (ErrorBody (String.append "Invalid input format: " (exn_str e))),
                  tr)
            else (mkResponse 500
                    (ErrorBody (String.append "Prediction generation failed: "
                                              (exn_str e))),
                  tr)
        end
  end.

(** The module-level [load_model]: a fresh handler, or [None] when its
    constructor raises. *)
Definition load_model (fs : file_state) : option PVModelHandler :=
  match Handler.init "final_pv_model.pkl" fs with
  | (h, Ok _) => Some h
  | (_, Raise _) => None
  end.

(** The end point [reload_model]: the global after the call and the
    response. *)
Definition reload_model (fs : file_state) (model_handler : option PVModelHandler)
  : option PVModelHandler * response :=
  let answer (mh : option PVModelHandler) : response :=
    match mh with
    | Some h =>
        if is_loaded h
        then mkResponse 200 (SuccessBody "Model reloaded successfully")
        else mkResponse 500 (ErrorBody "Failed to reload model")
    | None => mkResponse 500 (ErrorBody "Failed to reload model")
    end in
  match model_handler with
  | Some h =>
      match Handler.reload_model fs h with
      | (h', Ok _) => (Some h', answer (Some h'))
      | (h', Raise e) =>
          (Some h',
           mkResponse 500 (ErrorBody (String.append "Model reload failed: " (exn_str e))))
      end
  | None => let mh := load_model fs in (mh, answer mh)
  end.

End App.

(* ================================================================== *)
(** * Specification-level definitions *)
(* ================================================================== *)

Module Spec.

(** The finite entries of a column, in order. *)
Definition finite_values (l : list cell) : list Qc :=
  flat_map (fun c => match c with Fin q => [q] | _ => [] end) l.

Definition qsum (l : list Qc) : Qc := fold_right Qcplus q0 l.

(** The mean of the finite entries of a column; NaN when it has none. *)
Definition finite_mean (l : list cell) : cell :=
  match finite_values l with
  | [] => NaN
  | (_ :: _) as vs => Fin (qsum vs / qn (List.length vs))%Qc
  end.

(** The repaired value of a cell of column [l]: a finite cell is kept, a
    missing or infinite one becomes the mean of the finite entries. *)
Definition repaired (l : list cell) (c : cell) : cell :=
  match c with
  | Fin q => Fin q
  | _ => finite_mean l
  end.

Definition repair_column (c : column) : column :=
  mkCol (cname c) (map (repaired (cvals c)) (cvals c)).

End Spec.

(* ================================================================== *)
(** * Stub models and sample inputs used by the examples *)
(* ================================================================== *)

Module Fixtures.

Import Handler.

Definition num (z : Z) : cell := Fin (qz z).

(** A regressor that answers the same value for every row. *)
Definition const_model (v : cell) : regressor :=
  mkReg "StubRegressor" None (fun X => Ok (repeat v (nrows X))).

(** The handler after [PVModelHandler(path)] found the pickle [o]. *)
Definition handler_of (o : pyobj) : PVModelHandler :=
  fst (Handler.init "final_pv_model.pkl" (Pickled o)).

Definition loaded (m : regressor) : PVModelHandler := handler_of (PModel m).

(** A table with one column holding a finite, a missing and an
    infinite cell, and one column with nothing but missing cells. *)
Definition sample_df : DataFrame :=
  mkDF ["2023-06-01"; "2023-06-02"; "2023-06-03"]
       [ mkCol "T2M" [num 3; NaN; PInf];
         mkCol "WS2M" [NaN; NaN; NaN] ].

Definition one_row_df : DataFrame := mkDF ["0"] [mkCol "T2M" [num 25]].

End Fixtures.

(* ================================================================== *)
(** * The blend, as the specification words it *)
(* ================================================================== *)

Module BlendSpec.





End BlendSpec.

Module EnsembleFixtures.

Import Fixtures.

(** Models A (constant 10) and B (constant 20) with weights [wa], [wb]. *)
Definition ab_ensemble (wa wb : cell) : EnsembleModel :=
  mkEnsemble [("A", PModel (const_model (num 10)));
              ("B", PModel (const_model (num 20)))]
             (PDict [("A", PNum wa); ("B", PNum wb)])
             ["A"; "B"].

Definition half : cell := Fin (qd 1 2).

(** The same two models, with no weight for B. *)
Definition missing_weight_ensemble : EnsembleModel :=
  mkEnsemble [("A", PModel (const_model (num 10)));
              ("B", PModel (const_model (num 20)))]
             (PDict [("A", PNum half)])
             ["A"; "B"].

End EnsembleFixtures.

(* ================================================================== *)
(** * The artifact kinds, as the specification words them *)
(* ================================================================== *)

Module LoadSpec.

Import Handler.


End LoadSpec.

(* ================================================================== *)
(** * The retry policy, as the specification words it *)
(* ================================================================== *)

Module RetrySpec.

Import Client.



End RetrySpec.

Module ClientFixtures.

Import Dates Client Fixtures.

(** An instant after the dates of the examples: 2026-01-01 00:00. *)
Definition a_later_day : datetime := of_ymd 2026 1 1.

Definition casablanca_lat : cell := Fin (qd 335731 10000).
Definition casablanca_lon : cell := Fin (qd (-75898) 10000).

Definition always_timeout : transport := fun _ => Failure Timeout.



End ClientFixtures.

(* ================================================================== *)
(** * The fixed date format, as the specification words it *)
(* ================================================================== *)

Module DateSpec.

Import Dates.

Fixpoint all_digits (s : string) : bool :=
  match s with
  | EmptyString => true
  | String c r => is_digit c && all_digits r
  end.

(** The fixed 8-digit date format YYYYMMDD. *)
Definition is_yyyymmdd (s : string) : bool :=
  (String.length s =? 8)%nat && all_digits s.

End DateSpec.

Module AppFixtures.

Import Handler App Fixtures ClientFixtures.

(** Three days of provider data, 2023-06-01 to 2023-06-03. *)
Definition june_df : DataFrame :=
  mkDF ["2023-06-01"; "2023-06-02"; "2023-06-03"]
       [ mkCol "ALLSKY_SFC_SW_DWN" [num 7; num 8; num 6];
         mkCol "T2M" [num 22; num 23; num 21] ].

Definition june_source : data_source := fun _ _ _ _ => Ok june_df.

(** The request of the end-to-end scenario: capacity 2.0, three days. *)
Definition scenario_request : request_data :=
  mkReq (FNum casablanca_lat) (FNum casablanca_lon) (FNum (num 2))
        (Some "2023-06-01") (Some "2023-06-03").

(** The same place with start and end on one day. *)
Definition same_day_request : request_data :=
  mkReq (FNum casablanca_lat) (FNum casablanca_lon) Absent
        (Some "2023-06-01") (Some "2023-06-01").

(** A range of two years. *)
Definition two_year_request : request_data :=
  mkReq (FNum casablanca_lat) (FNum casablanca_lon) Absent
        (Some "2021-06-01") (Some "2023-06-01").

Definition stub5 : PVModelHandler := loaded (const_model (num 5)).

End AppFixtures.

(* ================================================================== *)
(** * More of model_handler.py *)
(* ================================================================== *)

Module Summary.

Import Handler.

(** [ndarray.mean()]: the sum over the length; NaN for an empty array. *)
Definition np_mean (l : list cell) : cell :=
  match l with
  | [] => NaN
  | _ :: _ => div_count (np_sum l) (List.length l)
  end.

(** [min] and [max] of two floats as numpy reduces them: a NaN operand
    wins. *)
Definition min2 (a b : cell) : cell :=
  if isnan a then NaN else if isnan b then NaN else if ltb b a then b else a.

Definition max2 (a b : cell) : cell :=
  if isnan a then NaN else if isnan b then NaN else if ltb a b then b else a.

Definition empty_reduction : exn :=
  ValueError "zero-size array to reduction operation which has no identity".

(** [ndarray.min()] and [ndarray.max()]: an empty array has none. *)
Definition np_min (l : list cell) : pyres cell :=
  match l with
  | [] => Raise empty_reduction
  | x :: r => Ok (fold_left min2 r x)
  end.

Definition np_max (l : list cell) : pyres cell :=
  match l with
  | [] => Raise empty_reduction
  | x :: r => Ok (fold_left max2 r x)
  end.

(** The dict of [get_prediction_summary], all entries but the standard
    deviation (a square root). *)
Record summary_stats : Type := mkStats {
  total_days : nat;
  total_production_kwh : cell;
  total_savings_mad : cell;
  avg_daily_production_kwh : cell;
  avg_daily_savings_mad : cell;
  min_daily_production_kwh : cell;
  max_daily_production_kwh : cell;
  conversion_rate_mad_per_kwh : cell
}.

(** [get_prediction_summary]: the entries are evaluated in the order of
    the dict display, so an empty array raises at the minimum. *)
Definition get_prediction_summary (predictions_kwh : list cell)
           (mad_per_kwh : cell) : pyres summary_stats :=
  let savings_mad := calculate_financial_savings predictions_kwh mad_per_kwh in
  mn <- np_min predictions_kwh ;;
  mx <- np_max predictions_kwh ;;
  Ok (mkStats (List.length predictions_kwh)
              (np_sum predictions_kwh) (np_sum savings_mad)
              (np_mean predictions_kwh) (np_mean savings_mad)
              mn mx mad_per_kwh).

(** [predict_single_day] on a dict: [pd.DataFrame([data_row])] has one
    row, labelled 0, and one column per key; the answer is element 0 of
    the prediction. *)
Definition single_row_frame (data_row : list (string * cell)) : DataFrame :=
  mkDF ["0"] (map (fun kv => mkCol (fst kv) [snd kv]) data_row).

Definition predict_single_day (h : PVModelHandler)
           (data_row : list (string * cell)) : pyres cell :=
  ps <- predict h (single_row_frame data_row) ;;
  match ps with
  | p :: _ => Ok p
  | [] => Raise (Exception_ "index 0 is out of bounds for axis 0 with size 0")
  end.

End Summary.

Module Lifecycle.

Import Handler.


End Lifecycle.

(* ================================================================== *)
(** * More of nasa_power_client.py *)
(* ================================================================== *)

Module Parameters.

(** [self.pv_parameters] *)
Definition essential : list string :=
  ["ALLSKY_SFC_SW_DWN"; "CLRSKY_SFC_SW_DWN"; "T2M_MAX"; "T2M_MIN";
   "ALLSKY_KT"; "CLOUD_AMT"; "AOD_55"; "WS2M"].

Definition important : list string :=
  ["T2M"; "T2M_MAX"; "T2M_MIN"; "WS2M"; "PRECTOTCORR"; "RH2M"; "ALLSKY_KT";
   "ALLSKY_SFC_SW_DNI"; "CLRSKY_SFC_SW_DNI"; "ALLSKY_SFC_SW_DIFF";
   "CLRSKY_SFC_SW_DIFF"; "ALLSKY_SFC_SW_DWN"; "CLRSKY_SFC_SW_DWN";
   "ALLSKY_SFC_LW_DWN"; "CLRSKY_SFC_LW_DWN"; "ALLSKY_SFC_LW_UP";
   "CLRSKY_SFC_LW_UP"].

Definition additional : list string :=
  ["WD2M"; "WS10M"; "T10M"; "PRECTOTCORR"; "QV2M"; "ALLSKY_SFC_SW_DNI";
   "CLRSKY_SFC_SW_DNI"; "SZA"].

Definition pv_parameters : list (string * list string) :=
  [("essential", essential); ("important", important); ("additional", additional)].

(** [dict.fromkeys(keys)] continued from the keys [d] already inserted:
    a key that is present keeps its place, a new one goes to the end. *)
Fixpoint fromkeys (keys : list string) (d : list string) : list string :=
  match keys with
  | [] => d
  | k :: keys' =>
      fromkeys keys' (if existsb (String.eqb k) d then d else d ++ [k])
  end.

(** The [extend] loop over [self.pv_parameters.values()]. *)
Definition all_params (sets : list (string * list string)) : list string :=
  List.concat (map snd sets).

(** [get_all_pv_parameters], for any table of parameter sets. *)
Definition get_all_of (sets : list (string * list string)) : list string :=
  fromkeys (all_params sets) [].

Definition get_all_pv_parameters : list string := get_all_of pv_parameters.

(** The parameter selection at the head of [fetch_data]: a non-empty
    custom list, else every parameter for "all", else the named set,
    with the essential set for an unknown name. *)
Definition select_parameters (custom_parameters : option (list string))
           (parameter_set : string) : list string :=
  match custom_parameters with
  | Some (p :: ps) => p :: ps
  | _ =>
      if String.eqb parameter_set "all" then get_all_pv_parameters
      else match dict_get pv_parameters parameter_set with
           | Some ps => ps
           | None => essential
           end
  end.

End Parameters.

Module DateFormat.

Import Dates.

Local Open Scope Z_scope.

Definition digit_char (k : Z) : ascii := ascii_of_nat (48 + Z.to_nat k).

Definition pad2 (n : Z) : string :=
  String (digit_char (n / 10)) (String (digit_char (n mod 10)) EmptyString).

Definition pad4 (n : Z) : string :=
  String (digit_char (n / 1000))
         (String (digit_char (n / 100 mod 10)) (pad2 (n mod 100))).

Definition sep_text (sep : option ascii) : string :=
  match sep with
  | Some c => String c EmptyString
  | None => EmptyString
  end.

(** [datetime(y, m, d).strftime(fmt)] for the formats [%Y%m%d]
    ([sep = None]) and [%Y-%m-%d] ([sep = Some "-"]), for the years 1000
    to 9999 (the C library does not pad [%Y] below 1000). *)
Definition strftime (sep : option ascii) (y m d : Z) : string :=
  String.append (pad4 y)
    (String.append (sep_text sep)
       (String.append (pad2 m) (String.append (sep_text sep) (pad2 d)))).

(** A calendar date that [datetime] accepts, with a four-digit year. *)
Definition valid_ymd (y m d : Z) : Prop :=
  1000 <= y <= 9999 /\ 1 <= m <= 12 /\ 1 <= d <= days_in_month y m.

(** A date text a caller may send: the year, the month 1 written with
    one digit, and the day [10 * t + k] written with two. *)
Definition short_month_text (y t k : Z) : string :=
  String.append (pad4 y) (String "-" (String "1" (String "-" (pad2 (10 * t + k))))).

End DateFormat.

(* ================================================================== *)
(** * scrape_nasa_data.py *)
(* ================================================================== *)

Module Scrape.

Import Dates Client.

(** [s.replace(c, '')] *)
Fixpoint remove_char (c : ascii) (s : string) : string :=
  match s with
  | EmptyString => EmptyString
  | String a r => if Ascii.eqb a c then remove_char c r else String a (remove_char c r)
  end.

(** [if '-' in s: s = s.replace('-', '')] *)
Definition to_yyyymmdd (s : string) : string :=
  if contains "-" s then remove_char "-" s else s.

(** [parse_to_dataframe] is pandas code: a parameter. *)
Definition parser : Type := api_response -> pyres DataFrame.

(** [NASAPowerGEOSITClient.get_pv_data]: [fetch_data] with its default
    3 attempts and 1.0 s base delay, then [parse_to_dataframe]; a [None]
    from [fetch_data] cannot be subscripted. *)
Definition get_pv_data (self : NASAPowerGEOSITClient) (now : datetime)
           (t : transport) (parse : parser) (latitude longitude : cell)
           (start_date end_date : string) : pyres DataFrame * list event :=
  match fetch_data self now t latitude longitude start_date end_date 3 1%Qc with
  | (Raise e, tr) => (Raise e, tr)
  | (Ok None, tr) =>
      (Raise (TypeError "'NoneType' object is not subscriptable"), tr)
  | (Ok (Some raw_data), tr) => (parse raw_data, tr)
  end.

Definition wrap_failure (e : exn) : exn :=
  Exception_ (String.append "Failed to fetch NASA POWER data: " (exn_str e)).

(** [get_pv_data_for_dashboard]: a client built at [now_init], the dates
    stripped of dashes, fetch and parse at [now], the CSV written by
    [to_csv]; every exception is re-raised as a plain [Exception]. *)
Definition get_pv_data_for_dashboard (now_init now : datetime) (t : transport)
           (parse : parser) (to_csv : DataFrame -> pyres unit)
           (latitude longitude : cell) (start_date end_date : string)
  : pyres DataFrame * list event :=
  let client := Client.init now_init in
  let start_date := to_yyyymmdd start_date in
  let end_date := to_yyyymmdd end_date in
  match get_pv_data client now t parse latitude longitude start_date end_date with
  | (Raise e, tr) => (Raise (wrap_failure e), tr)
  | (Ok df, tr) =>
      match to_csv df with
      | Raise e => (Raise (wrap_failure e), tr)
      | Ok _ => (Ok df, tr)
      end
  end.

(** The data source the end point is wired to. *)
Definition dashboard_source (now_init now : datetime) (t : transport)
           (parse : parser) (to_csv : DataFrame -> pyres unit) : App.data_source :=
  fun lat lon sd ed =>
    fst (get_pv_data_for_dashboard now_init now t parse to_csv lat lon sd ed).

End Scrape.

(* ================================================================== *)
(** * More of app.py *)
(* ================================================================== *)

Module Endpoints.

Import Handler App.

(** ** /health *)

Record health_response : Type := mkHealthResponse {
  status_text : string;
  model_loaded : bool;
  model_health : health_report
}.

Definition health_check (model_handler : option PVModelHandler) : health_response :=
  mkHealthResponse
    "healthy"
    (match model_handler with Some h => is_loaded h | None => false end)
    (match model_handler with
     | Some h => validate_model_health h
     | None => unhealthy "Handler not initialized"
     end).

(** ** /api/validate-location *)

(** What [validate_location_availability] answers; it catches every
    exception itself, so it is a total parameter of the end point. *)
Record availability : Type := mkAvail {
  available : bool;
  avail_message : string
}.

Inductive location_body : Type :=
| LocError (msg : string)
| LocAvailability (a : availability).

Record location_response : Type := mkLoc { loc_status : Z; loc_body : location_body }.

(** The probes the end point started. *)
Inductive probe : Type := EvProbe (lat lon : cell).

Definition validate_location (probe_location : cell -> cell -> availability)
           (lat_field lon_field : field) : location_response * list probe :=
  let body : pyres (location_response * list probe) :=
    latitude <- float_of "latitude" lat_field ;;
    longitude <- float_of "longitude" lon_field ;;
    if negb (leb (Fin (qz (-90))) latitude && leb latitude (Fin (qz 90)))
    then Ok (mkLoc 400 (LocError "Latitude must be between -90 and 90"), [])
    else if negb (leb (Fin (qz (-180))) longitude && leb longitude (Fin (qz 180)))
    then Ok (mkLoc 400 (LocError "Longitude must be between -180 and 180"), [])
    else Ok (mkLoc 200 (LocAvailability (probe_location latitude longitude)),
             [EvProbe latitude longitude]) in
  match body with
  | Ok r => r
  | Raise e =>
      (mkLoc 400 (LocError (String.append "Location validation failed: " (exn_str e))),
       [])
  end.

(** ** /api/export: the name of the download *)

(** [s.replace(old, new)] for a two-character [old] and a
    one-character [new]: matches are taken left to right and do not
    overlap. *)
Fixpoint replace2 (o1 o2 new : ascii) (s : string) : string :=
  match s with
  | EmptyString => EmptyString
  | String a r =>
      match r with
      | String b r' =>
          if Ascii.eqb a o1 && Ascii.eqb b o2
          then String new (replace2 o1 o2 new r')
          else String a (replace2 o1 o2 new r)
      | EmptyString => String a EmptyString
      end
  end.

(** [s.replace(old, new)] for single characters. *)
Fixpoint replace1 (o new : ascii) (s : string) : string :=
  match s with
  | EmptyString => EmptyString
  | String a r => String (if Ascii.eqb a o then new else a) (replace1 o new r)
  end.

(** [f"pv_predictions_{location}_{start_date}_{end_date}.xlsx"
      .replace(', ', '_').replace(' ', '_')] *)
Definition export_filename (location start_date end_date : string) : string :=
  let raw :=
    String.append "pv_predictions_"
      (String.append location
         (String.append "_"
            (String.append start_date
               (String.append "_" (String.append end_date ".xlsx"))))) in
  replace1 " " "_" (replace2 "," " " "_" raw).

End Endpoints.

Module MoreFixtures.

Import Fixtures EnsembleFixtures ClientFixtures AppFixtures.

(** The pickled bundle of the A/B ensemble with weights 0.5 and 0.5. *)
Definition ab_bundle : pyobj :=
  PDict [("models", PDict (models (ab_ensemble half half)));
         ("weights", weights (ab_ensemble half half))].




(** A request for five days of 2019, before the provider's first day. *)
Definition early_request : App.request_data :=
  App.mkReq (App.FNum casablanca_lat) (App.FNum casablanca_lon) App.Absent
            (Some "2019-06-01") (Some "2019-06-05").

(** A parser that answers the June table, and a CSV write that succeeds. *)
Definition parse_june : Scrape.parser := fun _ => Ok june_df.

Definition csv_ok : DataFrame -> pyres unit := fun _ => Ok tt.

(** A probe that reports every location as available. *)
Definition probe_yes : cell -> cell -> Endpoints.availability :=
  fun _ _ => Endpoints.mkAvail true "GEOS-IT data available".

End MoreFixtures.

(* ================================================================== *)
(** * Preprocessing *)
(* ================================================================== *)

Module PreprocessFacts.

Import Spec Handler.

Definition no_inf (l : list cell) : Prop := existsb isinf l = false.

Lemma nansum_step (l : list cell) (a : Qc) :
  no_inf l ->
  fold_left (fun acc c => if isnan c then acc else add acc c) l (Fin a)
  = Fin (a + qsum (finite_values l))%Qc.
Proof.
  unfold no_inf. revert a.
  induction l as [|c l IH]; intros a H; simpl in *.
  - f_equal. unfold q0. ring.
  - apply orb_false_elim in H as [Hc Hl].
    destruct c; simpl in *; try discriminate.
    + rewrite IH by assumption. f_equal. ring.
    + rewrite IH by assumption. reflexivity.
Qed.

Lemma count_valid_no_inf (l : list cell) :
  no_inf l -> count_valid l = List.length (finite_values l).
Proof.
  unfold no_inf, count_valid.
  induction l as [|c l IH]; intros H; simpl in *; [reflexivity|].
  apply orb_false_elim in H as [Hc Hl].
  destruct c; simpl in *; try discriminate; rewrite IH by assumption; reflexivity.
Qed.

Lemma mean_no_inf (l : list cell) : no_inf l -> mean l = finite_mean l.
Proof.
  intros H. unfold mean, finite_mean, nansum.
  rewrite (count_valid_no_inf l H), (nansum_step l q0 H).
  destruct (finite_values l) as [|v vs]; [reflexivity|].
  cbn [List.length div_count].
  replace (q0 + qsum (v :: vs))%Qc with (qsum (v :: vs)) by (unfold q0; ring).
  reflexivity.
Qed.

(** Once the running sum has left the rationals it never comes back. *)
Lemma nansum_stays_special (l : list cell) (acc : cell) :
  isfinite acc = false ->
  isfinite (fold_left (fun acc c => if isnan c then acc else add acc c) l acc)
  = false.
Proof.
  revert acc. induction l as [|c l IH]; intros acc H; simpl; [assumption|].
  apply IH. destruct c, acc; simpl in *; congruence.
Qed.

Lemma nansum_with_inf (l : list cell) (acc : cell) :
  existsb isinf l = true ->
  isfinite (fold_left (fun acc c => if isnan c then acc else add acc c) l acc)
  = false.
Proof.
  revert acc. induction l as [|c l IH]; intros acc H; simpl in *; [discriminate|].
  apply orb_true_iff in H as [Hc | Hl].
  - apply nansum_stays_special. destruct c, acc; simpl in *; congruence.
  - apply IH; assumption.
Qed.

Lemma mean_with_inf (l : list cell) :
  existsb isinf l = true -> isfinite (mean l) = false.
Proof.
  intros H. unfold mean. destruct (count_valid l); [reflexivity|].
  pose proof (nansum_with_inf l (Fin q0) H) as Hs. fold (nansum l) in Hs.
  destruct (nansum l); simpl in *; congruence.
Qed.

Lemma finite_values_inf_to_nan (l : list cell) :
  finite_values (map inf_to_nan l) = finite_values l.
Proof.
  induction l as [|c l IH]; simpl; [reflexivity|].
  destruct c; simpl; rewrite ?IH; reflexivity.
Qed.

Lemma no_inf_inf_to_nan (l : list cell) : no_inf (map inf_to_nan l).
Proof.
  unfold no_inf. induction l as [|c l IH]; simpl; [reflexivity|].
  rewrite IH. destruct c; reflexivity.
Qed.

Lemma finite_mean_inf_to_nan (l : list cell) :
  finite_mean (map inf_to_nan l) = finite_mean l.
Proof. unfold finite_mean. rewrite finite_values_inf_to_nan. reflexivity. Qed.


(** The second pass on a column: null the infinities, fill with the mean. *)
Definition second_pass (l : list cell) : list cell :=
  let l' := map inf_to_nan l in fillna (mean l') l'.

Lemma second_pass_repairs (l : list cell) :
  second_pass l = map (repaired l) l.
Proof.
  unfold second_pass.
  rewrite (mean_no_inf _ (no_inf_inf_to_nan l)), finite_mean_inf_to_nan.
  unfold fillna. rewrite map_map. apply map_ext.
  intros c; destruct c; reflexivity.
Qed.

(** The first pass on a column without infinities already repairs it. *)
Lemma first_pass_repairs (l : list cell) :
  no_inf l -> fillna (mean l) l = map (repaired l) l.
Proof.
  intros H. rewrite (mean_no_inf l H). unfold fillna.
  apply map_ext_in. intros c Hc.
  destruct c; try reflexivity; exfalso.
  - unfold no_inf in H. assert (existsb isinf l = true)
      by (apply existsb_exists; exists PInf; split; [assumption|reflexivity]).
    congruence.
  - unfold no_inf in H. assert (existsb isinf l = true)
      by (apply existsb_exists; exists NInf; split; [assumption|reflexivity]).
    congruence.
Qed.

(** With an infinity in the column the first fill uses an infinite or
    undefined mean, and nulling the infinities undoes it. *)
Lemma first_fill_undone (l : list cell) :
  existsb isinf l = true ->
  map inf_to_nan (fillna (mean l) l) = map inf_to_nan l.
Proof.
  intros H. pose proof (mean_with_inf l H) as Hm.
  unfold fillna. rewrite map_map. apply map_ext. intros c.
  destruct (mean l) as [q| | |]; [discriminate Hm| | |];
    destruct c; reflexivity.
Qed.

Lemma finite_values_repaired_nil (l0 l : list cell) :
  finite_values l0 = [] -> finite_values l = [] ->
  finite_values (map (repaired l0) l) = [].
Proof.
  intros H0. induction l as [|c l IH]; intros H; [reflexivity|].
  destruct c; simpl in *; try discriminate.
  all: unfold finite_mean; rewrite H0; simpl; apply IH; exact H.
Qed.

Lemma repaired_mean_fixed (l : list cell) :
  repaired (map (repaired l) l) (finite_mean l) = finite_mean l.
Proof.
  destruct (finite_values l) as [|v vs] eqn:E.
  - assert (Hm : finite_mean l = NaN) by (unfold finite_mean; rewrite E; reflexivity).
    rewrite Hm. simpl. unfold finite_mean.
    rewrite (finite_values_repaired_nil l l E E). reflexivity.
  - unfold finite_mean at 1 2. rewrite E. reflexivity.
Qed.

(** Repairing is idempotent under the two passes: a repaired column
    has no infinity, and either no NaN or nothing but NaN. *)
Lemma second_pass_after_repair (l : list cell) :
  second_pass (map (repaired l) l) = map (repaired l) l.
Proof.
  rewrite second_pass_repairs. rewrite map_map.
  apply map_ext. intros c.
  destruct c; simpl; try reflexivity; apply repaired_mean_fixed.
Qed.

Lemma inf_survives_fill (v : cell) (l : list cell) :
  existsb isinf l = true -> existsb isinf (fillna v l) = true.
Proof.
  induction l as [|c l IH]; simpl; intros H; [discriminate|].
  apply orb_true_iff in H as [Hc | Hl].
  - destruct c; simpl in *; try discriminate; reflexivity.
  - rewrite (IH Hl). apply orb_true_r.
Qed.

(** Both passes on one column, whatever the other columns contain. *)
Lemma two_passes_repair (l : list cell) :
  second_pass (fillna (mean l) l) = map (repaired l) l.
Proof.
  destruct (existsb isinf l) eqn:E.
  - unfold second_pass. rewrite (first_fill_undone l E).
    apply second_pass_repairs.
  - rewrite (first_pass_repairs l E). apply second_pass_after_repair.
Qed.

Lemma any_inf_false_columns (cols : list column) :
  existsb (fun c => existsb isinf (cvals c)) (map fillna_mean_col cols) = false ->
  Forall (fun c => no_inf (cvals c)) cols.
Proof.
  induction cols as [|c cols IH]; simpl; intros H; constructor.
  - apply orb_false_elim in H as [Hc _].
    unfold no_inf. destruct (existsb isinf (cvals c)) eqn:E; [|reflexivity].
    rewrite (inf_survives_fill _ _ E) in Hc. discriminate.
  - apply IH. apply orb_false_elim in H as [_ Hr]. exact Hr.
Qed.

(** [preprocess_data] computes the column-wise repair. *)
Lemma preprocess_data_repair (df : DataFrame) :
  preprocess_data df = mkDF (index df) (map repair_column (columns df)).
Proof.
  unfold preprocess_data.
  destruct (any_inf (fillna_mean df)) eqn:E.
  - unfold fillna_mean, replace_inf; simpl. f_equal.
    rewrite !map_map. apply map_ext. intros c.
    unfold fillna_mean_col, repair_column; simpl. f_equal.
    apply (two_passes_repair (cvals c)).
  - unfold fillna_mean. f_equal.
    unfold any_inf, fillna_mean in E; simpl in E.
    apply any_inf_false_columns in E.
    apply map_ext_in. intros c Hc.
    unfold fillna_mean_col, repair_column. f_equal.
    apply first_pass_repairs.
    rewrite Forall_forall in E. apply E. exact Hc.
Qed.

End PreprocessFacts.

Module PreprocessClaims.

Import Spec Handler PreprocessFacts Fixtures.



End PreprocessClaims.

(* ================================================================== *)
(** * Prediction: clamping and the health check *)
(* ================================================================== *)

Module PredictFacts.

Import Spec Handler Fixtures.

(** Equality of concrete cells: rationals are compared through their
    canonical form. *)
Ltac cells_eq :=
  vm_compute;
  repeat match goal with
    | |- @eq Qc _ _ => apply Qc_is_canon; reflexivity
    | |- Fin _ = Fin _ => apply f_equal
    | |- cons _ _ = cons _ _ => apply f_equal2
    | |- Ok _ = Ok _ => apply f_equal
    | |- Some _ = Some _ => apply f_equal
    | |- pair _ _ = pair _ _ => apply f_equal2
    | |- _ => reflexivity
    end.

Lemma Qc_ltb_lt (a b : Qc) : Qc_ltb a b = true <-> (a < b)%Qc.
Proof.
  unfold Qc_ltb. rewrite Qclt_alt.
  destruct (a ?= b)%Qc; split; intros H; congruence.
Qed.

Lemma Qc_leb_le (a b : Qc) : Qc_leb a b = true <-> (a <= b)%Qc.
Proof.
  unfold Qc_leb. rewrite Qcle_alt.
  destruct (a ?= b)%Qc; split; intros H; congruence.
Qed.

Lemma maximum0_nonneg (v : cell) :
  isnan v = false -> nonneg (maximum0 v) = true.
Proof.
  destruct v as [x| | |]; simpl; intros H; try reflexivity; try discriminate.
  destruct (Qc_ltb x q0) eqn:E; unfold nonneg; simpl.
  - reflexivity.
  - apply Qc_leb_le. apply Qcnot_lt_le. intros Hlt.
    apply Qc_ltb_lt in Hlt. congruence.
Qed.

Lemma maximum0_negative (v : cell) :
  ltb v (Fin q0) = true -> maximum0 v = Fin q0.
Proof.
  destruct v as [x| | |]; simpl; intros H; try reflexivity; try discriminate.
  rewrite H. reflexivity.
Qed.

Lemma maximum0_keeps (v : cell) :
  nonneg v = true -> maximum0 v = v.
Proof.
  destruct v as [x| | |]; unfold nonneg; simpl; intros H;
    try reflexivity; try discriminate.
  destruct (Qc_ltb x q0) eqn:E; [|reflexivity].
  apply Qc_ltb_lt in E. apply Qc_leb_le in H.
  exfalso. apply (Qcle_not_lt _ _ H E).
Qed.

(** What a successful [predict] returned, traced back to the model. *)
Lemma predict_ok_inv (h : PVModelHandler) (df : DataFrame) (out : list cell) :
  predict h df = Ok out ->
  exists a raw,
    is_loaded h = true /\ model h = Some a /\ empty df = false /\
    model_predict a (preprocess_data df) = Ok (Arr raw) /\
    out = map maximum0 raw /\ List.length out = nrows df.
Proof.
  unfold predict. intros H.
  destruct (is_loaded h) eqn:El; simpl in H; [|discriminate].
  destruct (model h) as [a|] eqn:Em; [|discriminate].
  unfold validate_input_data in H.
  destruct (empty df) eqn:Ee; simpl in H; [discriminate|].
  destruct (model_predict a (preprocess_data df)) as [raw|e] eqn:Ep; simpl in H;
    [|discriminate].
  destruct raw as [c|raw]; simpl in H; [discriminate|].
  destruct (List.length (map maximum0 raw) =? nrows df)%nat eqn:E; simpl in H;
    [|discriminate].
  destruct (report_info h a); simpl in H; [|discriminate].
  inversion H; subst. exists a, raw.
  apply Nat.eqb_eq in E. repeat split; auto.
Qed.

End PredictFacts.

Module PredictClaims.

Import Spec Handler Fixtures PredictFacts.

(** C7, as the code has it.  Every value of a successful [predict] is
    the model's value passed through [np.maximum(., 0)]: a value that is
    not NaN comes out non-negative, a value below zero (minus infinity
    included) comes out as 0, a non-negative value is unchanged, and a
    NaN stays NaN; so every value of the output that is not NaN is
    non-negative. *)
Theorem predict_clamps_non_nan (h : PVModelHandler) (df : DataFrame)
        (out : list cell) :
  predict h df = Ok out ->
  exists a raw,
    model h = Some a /\
    model_predict a (preprocess_data df) = Ok (Arr raw) /\
    List.length out = List.length raw /\
    (forall w, In w out -> isnan w = false -> nonneg w = true) /\
    forall i v, nth_error raw i = Some v ->
      nth_error out i = Some (maximum0 v) /\
      (isnan v = false -> nonneg (maximum0 v) = true) /\
      (ltb v (Fin q0) = true -> maximum0 v = Fin q0) /\
      (nonneg v = true -> maximum0 v = v) /\
      (isnan v = true -> maximum0 v = NaN).
Proof.
  intros H. destruct (predict_ok_inv h df out H)
    as (a & raw & _ & Hm & _ & Hp & Hout & _).
  exists a, raw. subst out.
  split; [exact Hm|]. split; [exact Hp|]. split; [apply length_map|]. split.
  - intros w Hin Hw. apply in_map_iff in Hin as (v & <- & _).
    apply maximum0_nonneg. destruct v; simpl in *; congruence.
  - intros i v Hi. repeat split.
    + rewrite nth_error_map, Hi. reflexivity.
    + apply maximum0_nonneg.
    + apply maximum0_negative.
    + apply maximum0_keeps.
    + destruct v; simpl; intros; try discriminate; reflexivity.
Qed.

Lemma predict_clamps_non_nan_witness :
  predict (loaded (const_model (num (-3)))) one_row_df = Ok [Fin q0] /\
  exists a raw,
    model (loaded (const_model (num (-3)))) = Some a /\
    model_predict a (preprocess_data one_row_df) = Ok (Arr raw) /\
    List.length [Fin q0] = List.length raw /\
    (forall w, In w [Fin q0] -> isnan w = false -> nonneg w = true) /\
    forall i v, nth_error raw i = Some v ->
      nth_error [Fin q0] i = Some (maximum0 v) /\
      (isnan v = false -> nonneg (maximum0 v) = true) /\
      (ltb v (Fin q0) = true -> maximum0 v = Fin q0) /\
      (nonneg v = true -> maximum0 v = v) /\
      (isnan v = true -> maximum0 v = NaN).
Proof.
  split; [reflexivity|].
  apply (predict_clamps_non_nan (loaded (const_model (num (-3)))) one_row_df).
  reflexivity.
Defined.

(** C7, as stated, fails: a model that answers NaN makes [predict]
    return NaN, and NaN is not non-negative. *)
Lemma predict_nan_not_nonneg :
  predict (loaded (const_model NaN)) one_row_df = Ok [NaN] /\
  nonneg NaN = false /\
  ~ (forall h df out, predict h df = Ok out ->
       Forall (fun v => nonneg v = true) out).
Proof.
  split; [reflexivity|]. split; [reflexivity|].
  intros H.
  specialize (H (loaded (const_model NaN)) one_row_df [NaN] eq_refl).
  inversion H; subst. discriminate.
Qed.

End PredictClaims.

Module HealthClaims.

Import Spec Handler Fixtures PredictFacts.

Lemma predict_unloaded (h : PVModelHandler) (df : DataFrame) :
  is_loaded h = false -> predict h df = Raise (RuntimeError "Model is not loaded").
Proof. intros H. unfold predict. rewrite H. reflexivity. Qed.

Lemma predict_no_model (h : PVModelHandler) (df : DataFrame) :
  is_loaded h = true -> model h = None ->
  predict h df = Raise (RuntimeError "Model object is None").
Proof. intros H1 H2. unfold predict. rewrite H1, H2. reflexivity. Qed.

Lemma failed_message_nonempty (e : exn) :
  String.append "Model validation failed: " (exn_str e) <> "".
Proof. simpl. discriminate. Qed.

(** C3, as the code has it.  The report of [validate_model_health] is
    healthy exactly when the probe prediction returned one value that is
    not NaN, and then carries that value (an infinite value included);
    every exception of the probe, every NaN result and every unloaded
    handler gives healthy=false with a non-empty error text and no
    value.  The operation is a total function into reports: it has no
    exceptional outcome. *)
Theorem health_report_cases (h : PVModelHandler) :
  let r := validate_model_health h in
  (forall p, predict h (test_data h) = Ok [p] -> isnan p = false ->
     healthy r = true /\ test_prediction r = Some p /\ error r = None) /\
  (forall e, predict h (test_data h) = Raise e ->
     healthy r = false /\ exists msg, error r = Some msg /\ msg <> "") /\
  (predict h (test_data h) = Ok [NaN] ->
     healthy r = false /\ exists msg, error r = Some msg /\ msg <> "") /\
  (healthy r = true ->
     exists p, predict h (test_data h) = Ok [p] /\ isnan p = false /\
               test_prediction r = Some p) /\
  (healthy r = false ->
     test_prediction r = None /\ exists msg, error r = Some msg /\ msg <> "").
Proof.
  unfold validate_model_health.
  destruct (is_loaded h) eqn:El; simpl.
  2:{ rewrite (predict_unloaded h _ El).
      repeat split; intros; try discriminate;
        try (eexists; split; [reflexivity|discriminate]). }
  destruct (model h) as [a|] eqn:Em.
  2:{ rewrite (predict_no_model h _ El Em).
      repeat split; intros; try discriminate;
        try (eexists; split; [reflexivity|discriminate]). }
  destruct (predict h (test_data h)) as [out|e].
  2:{ repeat split; intros; try discriminate;
        try (eexists; split; [reflexivity|apply failed_message_nonempty]). }
  destruct out as [|p [|p' out]].
  1,3: repeat split; intros; try discriminate;
         try (eexists; split; [reflexivity|discriminate]).
  destruct (isnan p) eqn:En; simpl.
  - repeat split; intros; try discriminate;
      try (eexists; split; [reflexivity|discriminate]).
    all: match goal with
         | H : Ok _ = Ok _ |- _ => inversion H; subst; congruence
         end.
  - repeat split; intros; try discriminate.
    all: try match goal with
             | H : Ok _ = Ok _ |- _ =>
                 inversion H; subst; solve [reflexivity | discriminate]
             end.
    exists p. auto.
Qed.

Lemma health_report_cases_witness :
  healthy (validate_model_health (loaded (const_model (num 5)))) = true /\
  test_prediction (validate_model_health (loaded (const_model (num 5))))
  = Some (num 5).
Proof.
  destruct (health_report_cases (loaded (const_model (num 5))))
    as (H & _).
  destruct (H (num 5) eq_refl eq_refl) as (H1 & H2 & _).
  split; assumption.
Defined.

(** C3, as stated, fails on an infinite result: the check is
    [not np.isnan], so a probe that returns plus infinity is reported
    healthy. *)
Lemma health_accepts_infinity :
  predict (loaded (const_model PInf)) (test_data (loaded (const_model PInf)))
  = Ok [PInf] /\
  isfinite PInf = false /\
  validate_model_health (loaded (const_model PInf))
  = mkHealth true (Some PInf) (Some "Model validation successful") None.
Proof. repeat split. Qed.

End HealthClaims.

(* ================================================================== *)
(** * The weighted ensemble *)
(* ================================================================== *)

Module EnsembleFacts.

Import Spec BlendSpec Fixtures EnsembleFixtures PredictFacts.



Lemma add_zero_l (a : cell) : add (Fin q0) a = a.
Proof. destruct a; simpl; try reflexivity. f_equal. unfold q0. ring. Qed.











(** An ensemble without models blends to the scalar 0. *)
Lemma ensemble_blend_empty (ws : pyobj) (X : DataFrame) :
  ensemble_predict (mkEnsemble [] ws []) X = Ok (Scalar (Fin q0)).
Proof. reflexivity. Qed.

End EnsembleFacts.

Module EnsembleClaims.

Import Spec BlendSpec Handler Fixtures EnsembleFixtures PredictFacts EnsembleFacts.





End EnsembleClaims.

Module WeightLookupFacts.

Import Spec BlendSpec Handler Fixtures EnsembleFixtures.

Lemma weighted_term_ok_weight (ws : pyobj) (preds : list (string * list cell))
      (name : string) (t : ndval) :
  weighted_term ws preds name = Ok t ->
  exists kvs w, ws = PDict kvs /\ dict_get kvs name = Some w.
Proof.
  unfold weighted_term, weight_of. intros H.
  destruct ws as [m|c|kvs|ty]; simpl in H; try discriminate.
  destruct (dict_get kvs name) as [w|] eqn:E; simpl in H; [|discriminate].
  exists kvs, w. split; [reflexivity|exact E].
Qed.

Lemma sum_terms_ok_weights (ws : pyobj) (preds : list (string * list cell))
      (names : list string) :
  forall acc v, sum_terms ws preds names acc = Ok v ->
  forall name, In name names ->
  exists kvs w, ws = PDict kvs /\ dict_get kvs name = Some w.
Proof.
  induction names as [|n names IH]; intros acc v H name Hin; [contradiction|].
  simpl in H.
  destruct (weighted_term ws preds n) as [t|ex] eqn:Et; simpl in H; [|discriminate].
  destruct (nd_add acc t) as [acc'|ex]; simpl in H; [|discriminate].
  destruct Hin as [<- | Hin].
  - eapply weighted_term_ok_weight; exact Et.
  - eapply IH; eassumption.
Qed.

Lemma sum_terms_app (ws : pyobj) (preds : list (string * list cell))
      (pre rest : list string) :
  forall acc,
    sum_terms ws preds (pre ++ rest) acc
    = (acc' <- sum_terms ws preds pre acc ;; sum_terms ws preds rest acc').
Proof.
  induction pre as [|n pre IH]; intros acc; simpl; [reflexivity|].
  destruct (weighted_term ws preds n) as [t|ex]; simpl; [|reflexivity].
  destruct (nd_add acc t) as [acc'|ex]; simpl; [|reflexivity].
  apply IH.
Qed.

Lemma weighted_term_missing (kvs : list (string * pyobj))
      (preds : list (string * list cell)) (name : string) :
  dict_get kvs name = None ->
  weighted_term (PDict kvs) preds name = Raise (KeyError name).
Proof. intros H. unfold weighted_term, weight_of. rewrite H. reflexivity. Qed.

Lemma dict_get_skip {V} (kvs1 kvs2 : list (string * V)) (k name : string) (v : V) :
  name <> k ->
  dict_get (kvs1 ++ (k, v) :: kvs2) name = dict_get (kvs1 ++ kvs2) name.
Proof.
  intros Hne. induction kvs1 as [|[k1 v1] kvs1 IH]; simpl.
  - destruct (String.eqb_spec k name); [congruence|reflexivity].
  - destruct (String.eqb k1 name); [reflexivity|exact IH].
Qed.

Lemma sum_terms_skip (kvs1 kvs2 : list (string * pyobj)) (k : string) (v : pyobj)
      (preds : list (string * list cell)) (names : list string) :
  ~ In k names ->
  forall acc,
    sum_terms (PDict (kvs1 ++ (k, v) :: kvs2)) preds names acc
    = sum_terms (PDict (kvs1 ++ kvs2)) preds names acc.
Proof.
  induction names as [|n names IH]; intros Hnot acc; simpl; [reflexivity|].
  assert (Hn : n <> k) by (intros ->; apply Hnot; left; reflexivity).
  unfold weighted_term at 1 2, weight_of.
  rewrite (dict_get_skip kvs1 kvs2 k n v Hn).
  destruct (dict_get (kvs1 ++ kvs2) n) as [w|]; simpl; [|reflexivity].
  destruct (dict_get preds n) as [p|]; simpl; [|reflexivity].
  destruct w; simpl; try reflexivity.
  destruct (nd_add acc (nd_scale c p)); simpl; [|reflexivity].
  apply IH. intros Hin. apply Hnot. right. exact Hin.
Qed.

End WeightLookupFacts.

Module WeightLookupClaims.

Import Spec BlendSpec Handler Fixtures EnsembleFixtures WeightLookupFacts.

(** C9.  For every ensemble and table:
    (a) if [EnsembleModel.predict] succeeds, every model name has an
        entry in the weight mapping;
    (b) a model name without a weight makes it fail, and with
        [KeyError(name)] when the base models predicted and the names
        before it blended without error;
    (c) an entry of the weight mapping whose name is no model name does
        not change the result, whatever its value and position;
    (d) the model names of a constructed ensemble are the keys of its
        model mapping. *)
Theorem ensemble_weight_lookup :
  (forall d e, EnsembleModel_init d = Ok e ->
     model_names e = dict_keys (models e)) /\
  (forall e X v, ensemble_predict e X = Ok v ->
     forall name, In name (model_names e) ->
     exists kvs w, weights e = PDict kvs /\ dict_get kvs name = Some w) /\
  (forall e X kvs name, weights e = PDict kvs -> In name (model_names e) ->
     dict_get kvs name = None ->
     (exists ex, ensemble_predict e X = Raise ex) /\
     (forall preds pre rest acc,
        collect_predictions (models e) X = Ok preds ->
        model_names e = pre ++ name :: rest ->
        sum_terms (weights e) preds pre (Scalar (Fin q0)) = Ok acc ->
        ensemble_predict e X = Raise (KeyError name))) /\
  (forall ms names X kvs1 kvs2 k v, ~ In k names ->
     ensemble_predict (mkEnsemble ms (PDict (kvs1 ++ (k, v) :: kvs2)) names) X
     = ensemble_predict (mkEnsemble ms (PDict (kvs1 ++ kvs2)) names) X).
Proof.
  assert (HA : forall e X v, ensemble_predict e X = Ok v ->
     forall name, In name (model_names e) ->
     exists kvs w, weights e = PDict kvs /\ dict_get kvs name = Some w).
  { intros e X v H name Hin. unfold ensemble_predict in H.
    destruct (collect_predictions (models e) X) as [preds|ex]; simpl in H;
      [|discriminate].
    eapply sum_terms_ok_weights; eassumption. }
  split.
  { intros d e H. unfold EnsembleModel_init in H.
    destruct (dict_get d "models") as [[m|c|ms|ty]|];
      destruct (dict_get d "weights") as [ws|]; try discriminate.
    inversion H; subst. reflexivity. }
  split; [exact HA|]. split.
  - intros e X kvs name Hw Hin Hnone. split.
    + destruct (ensemble_predict e X) as [v|ex] eqn:E; [|exists ex; reflexivity].
      destruct (HA e X v E name Hin) as (kvs' & w & Hw' & Hget).
      rewrite Hw in Hw'. inversion Hw'; subst. congruence.
    + intros preds pre rest acc Hc Hn Hs. unfold ensemble_predict.
      rewrite Hc. simpl. rewrite Hn, sum_terms_app, Hs. simpl.
      rewrite Hw, (weighted_term_missing kvs preds name Hnone). reflexivity.
  - intros ms names X kvs1 kvs2 k v Hnot. unfold ensemble_predict; simpl.
    destruct (collect_predictions ms X) as [preds|ex]; simpl; [|reflexivity].
    apply sum_terms_skip. exact Hnot.
Qed.

Lemma ensemble_weight_lookup_witness :
  ensemble_predict missing_weight_ensemble sample_df = Raise (KeyError "B") /\
  ensemble_predict
    (mkEnsemble (models (ab_ensemble half half))
                (PDict ([("A", PNum half)] ++ ("C", PNum (num 7)) :: [("B", PNum half)]))
                ["A"; "B"]) sample_df
  = ensemble_predict (ab_ensemble half half) sample_df.
Proof.
  destruct ensemble_weight_lookup as (_ & _ & HB & HC). split.
  - destruct (HB missing_weight_ensemble sample_df [("A", PNum half)] "B"
                 eq_refl (or_intror (or_introl eq_refl)) eq_refl) as (_ & H).
    apply (H [("A", repeat (num 10) 3); ("B", repeat (num 20) 3)] ["A"] []
             (Arr (map (add (Fin q0)) (map (mul half) (repeat (num 10) 3))))).
    + reflexivity.
    + reflexivity.
    + reflexivity.
  - apply (HC (models (ab_ensemble half half)) ["A"; "B"] sample_df
              [("A", PNum half)] [("B", PNum half)] "C" (PNum (num 7))).
    simpl. intuition discriminate.
Defined.

(** The handler on a pickled bundle with both mappings: 15 on every row
    of the sample table. *)
Example handler_blend_sample :
  predict (handler_of (PDict [("models", PDict (models (ab_ensemble half half)));
                              ("weights", weights (ab_ensemble half half))]))
          sample_df
  = Ok [num 15; num 15; num 15].
Proof. PredictFacts.cells_eq. Qed.

End WeightLookupClaims.

(* ================================================================== *)
(** * Loading and reloading the artifact *)
(* ================================================================== *)

Module ReloadFacts.

Import Handler LoadSpec Fixtures.



End ReloadFacts.

Module ReloadClaims.

Import Handler LoadSpec Fixtures ReloadFacts.


(** A working handler whose file has vanished ends up unloaded. *)
Example reload_failure_discards :
  let h := loaded (const_model (num 5)) in
  is_loaded h = true /\ model h = Some (ADirect (const_model (num 5))) /\
  reload_model NoFile h
  = (mkHandler (model_path h) None (model_info h) false (ensemble_info h),
     Raise (FileNotFoundError "Model file not found")).
Proof. repeat split. Qed.

(** A successful reload puts the new model in place of the old one. *)
Example reload_success_replaces :
  let h := loaded (const_model (num 5)) in
  model (fst (reload_model (Pickled (PModel (const_model (num 7)))) h))
  = Some (ADirect (const_model (num 7))) /\
  is_loaded (fst (reload_model (Pickled (PModel (const_model (num 7)))) h)) = true.
Proof. split; reflexivity. Qed.

(** The reload end point answers 500 and keeps the unloaded handler. *)
Example reload_endpoint_failure :
  let h := loaded (const_model (num 5)) in
  exists h', App.reload_model NoFile (Some h)
             = (Some h',
                App.mkResponse 500
                  (App.ErrorBody "Model reload failed: Model file not found")) /\
             is_loaded h' = false /\ model h' = None.
Proof. eexists. repeat split. Qed.

End ReloadClaims.

(* ================================================================== *)
(** * The retry loop of fetch_data *)
(* ================================================================== *)

Module RetryFacts.

Import Dates Client RetrySpec Fixtures ClientFixtures.



Lemma requests_made_app (a b : list event) :
  requests_made (a ++ b) = (requests_made a + requests_made b)%nat.
Proof. unfold requests_made. rewrite filter_app, length_app. reflexivity. Qed.

Lemma sleeps_app (a b : list event) : sleeps (a ++ b) = sleeps a ++ sleeps b.
Proof. unfold sleeps. apply flat_map_app. Qed.



Lemma sleeps_warnings (ws : list string) : sleeps (map EvWarn ws) = [].
Proof. induction ws; simpl; auto. Qed.

Lemma requests_warnings (ws : list string) : requests_made (map EvWarn ws) = 0%nat.
Proof. induction ws; simpl; auto. Qed.

Lemma sleeps_source_warning (d : api_response) : sleeps (source_warning d) = [].
Proof.
  unfold source_warning. destruct (header_source d); [|reflexivity].
  destruct (negb _); reflexivity.
Qed.

Lemma requests_source_warning (d : api_response) :
  requests_made (source_warning d) = 0%nat.
Proof.
  unfold source_warning. destruct (header_source d); [|reflexivity].
  destruct (negb _); reflexivity.
Qed.

Section Loop.

Variable t : transport.
Variable max_retries : Z.
Variable retry_delay : Qc.
Hypothesis delay_nonneg : (0 <= retry_delay)%Qc.



End Loop.

End RetryFacts.

Module RetryClaims.

Import Dates Client RetrySpec Fixtures ClientFixtures RetryFacts.




End RetryClaims.

(* ================================================================== *)
(** * Date validation of the data client *)
(* ================================================================== *)

Module DateFacts.

Import Dates Client DateSpec Fixtures ClientFixtures.

Section Validate.

Variable self : NASAPowerGEOSITClient.
Variable now : datetime.
Variables start_date end_date : string.
Variables start end_ : datetime.
Hypothesis parse_start : strptime None start_date = Ok start.
Hypothesis parse_end : strptime None end_date = Ok end_.

(** start > end is refused. *)
Lemma validate_dates_order :
  (end_ < start)%Z ->
  validate_dates self now start_date end_date
  = Raise (ValueError "Start date must be before end date").
Proof.
  intros H. unfold validate_dates. rewrite parse_start, parse_end.
  apply Z.ltb_lt in H. rewrite H. reflexivity.
Qed.

(** A start before the provider's first day is refused. *)
Lemma validate_dates_min :
  (start <= end_)%Z -> (start < min_date self)%Z ->
  validate_dates self now start_date end_date
  = Raise (ValueError "GEOS-IT data starts from 2020-01-01").
Proof.
  intros H1 H2. unfold validate_dates. rewrite parse_start, parse_end.
  apply Z.ltb_ge in H1. apply Z.ltb_lt in H2. rewrite H1, H2. reflexivity.
Qed.

(** An ordered range from the first day on is accepted; an end after
    [max_date] or less than three days back only adds a warning. *)
Lemma validate_dates_accepts :
  (start <= end_)%Z -> (min_date self <= start)%Z ->
  validate_dates self now start_date end_date
  = Ok ((if (max_date self <? end_)%Z then [warn_after_max] else [])
          ++ (if (delta_days now end_ <? 3)%Z then [warn_recent] else [])).
Proof.
  intros H1 H2. unfold validate_dates. rewrite parse_start, parse_end.
  apply Z.ltb_ge in H1. apply Z.ltb_ge in H2. rewrite H1, H2. reflexivity.
Qed.

End Validate.

(** Text that [strptime] refuses is refused with the format message. *)
Lemma validate_dates_format (self : NASAPowerGEOSITClient) (now : datetime)
      (start_date end_date : string) :
  (exists e, strptime None start_date = Raise e) \/
  (exists e, strptime None end_date = Raise e) ->
  validate_dates self now start_date end_date
  = Raise (ValueError "Dates must be in YYYYMMDD format").
Proof.
  unfold validate_dates. intros [[e H] | [e H]]; rewrite H.
  - reflexivity.
  - destruct (strptime None start_date); reflexivity.
Qed.

(** The month and day groups accept a single digit, so seven and six
    characters parse as well. *)
Example strptime_short_forms :
  strptime None "20230601" = Ok (of_ymd 2023 6 1) /\
  strptime None "2023061" = Ok (of_ymd 2023 6 1) /\
  strptime None "202361" = Ok (of_ymd 2023 6 1) /\
  strptime None "2023130" = Ok (of_ymd 2023 1 30) /\
  strptime None "20230229" = Raise (ValueError "day is out of range for month") /\
  strptime None "2023-06-01" = Raise (ValueError "time data does not match format").
Proof. repeat split. Qed.

Example ordinals :
  ymd2ord 2023 6 1 = 738672%Z /\ ymd2ord 2020 1 1 = 737425%Z /\ ymd2ord 1 1 1 = 1%Z.
Proof. repeat split. Qed.

End DateFacts.

Module DateClaims.

Import Dates Client DateSpec Fixtures ClientFixtures DateFacts.

(** C8 at the input that breaks it.  The text "2023061" has seven
    characters, so it is not in the 8-digit format, and yet
    [validate_dates] accepts the range "2023061" .. "20230610" for every
    client and every instant of the call: [strptime] reads it as
    2023-06-01. *)
Theorem validate_dates_accepts_short_date (now_init now : datetime) :
  is_yyyymmdd "2023061" = false /\
  is_yyyymmdd "20230610" = true /\
  exists ws, validate_dates (init now_init) now "2023061" "20230610" = Ok ws.
Proof.
  split; [reflexivity|]. split; [reflexivity|].
  eexists.
  apply (validate_dates_accepts (init now_init) now "2023061" "20230610"
           (of_ymd 2023 6 1) (of_ymd 2023 6 10)).
  - reflexivity.
  - reflexivity.
  - vm_compute. discriminate.
  - vm_compute. discriminate.
Qed.

(** The rest of C8 holds: the two refusals and the warnings that do not
    fail. *)
Lemma validate_dates_refusals_and_warnings
      (self : NASAPowerGEOSITClient) (now : datetime)
      (start_date end_date : string) (start end_ : datetime) :
  strptime None start_date = Ok start ->
  strptime None end_date = Ok end_ ->
  ((end_ < start)%Z ->
     exists msg, validate_dates self now start_date end_date = Raise (ValueError msg)) /\
  ((start < min_date self)%Z ->
     exists msg, validate_dates self now start_date end_date = Raise (ValueError msg)) /\
  ((start <= end_)%Z -> (min_date self <= start)%Z ->
     exists ws, validate_dates self now start_date end_date = Ok ws /\
       ((max_date self < end_)%Z -> In warn_after_max ws) /\
       ((delta_days now end_ < 3)%Z -> In warn_recent ws)).
Proof.
  intros Hs He. repeat split.
  - intros H. eexists. apply (validate_dates_order self now _ _ _ _ Hs He H).
  - intros H. destruct (Z.lt_ge_cases end_ start) as [Hlt|Hge].
    + eexists. apply (validate_dates_order self now _ _ _ _ Hs He Hlt).
    + eexists. apply (validate_dates_min self now _ _ _ _ Hs He Hge H).
  - intros H1 H2. eexists. split.
    + apply (validate_dates_accepts self now _ _ _ _ Hs He H1 H2).
    + split; intros H; apply Z.ltb_lt in H; rewrite H; apply in_or_app.
      * left. left. reflexivity.
      * right. left. reflexivity.
Qed.

End DateClaims.

(* ================================================================== *)
(** * The predictions end point *)
(* ================================================================== *)

Module AppFacts.

Import Dates Handler App Fixtures ClientFixtures AppFixtures.

(** The keyword argument of the call in [generate_predictions] is
    refused by the signature of [predict]. *)
Lemma predict_call_capacity (h : PVModelHandler) (df : DataFrame) (cap : cell) :
  predict_call h df [("capacity", cap)]
  = Raise (TypeError
             "PVModelHandler.predict() got an unexpected keyword argument 'capacity'").
Proof. reflexivity. Qed.

Lemma serve_outcome (h : PVModelHandler) (fetch : data_source)
      (lat lon cap : cell) (sd ed : string) :
  match fst (serve h fetch lat lon cap sd ed) with
  | Ok r => status r = 400%Z
  | Raise _ => True
  end.
Proof.
  unfold serve. destruct (fetch lat lon sd ed) as [df|e]; [|exact I].
  destruct (empty df); [reflexivity|].
  rewrite predict_call_capacity. exact I.
Qed.

Lemma check_request_early (data : request_data) (resp : response) :
  check_request data = Ok (inr resp) -> status resp = 400%Z.
Proof.
  unfold check_request. intros H.
  destruct (float_of "latitude" (latitude data)) as [lat|e]; [|discriminate].
  destruct (float_of "longitude" (longitude data)) as [lon|e]; [|discriminate].
  destruct (capacity_of (capacity data)) as [cap|e]; [|discriminate].
  destruct (text_of "start_date" (start_date data)) as [sd|e]; [|discriminate].
  destruct (text_of "end_date" (end_date data)) as [ed|e]; [|discriminate].
  cbn [Py.bind] in H.
  destruct (negb (in_coordinates lat lon)); [inversion H; reflexivity|].
  destruct (strptime (Some "-"%char) sd) as [s|e]; [|discriminate].
  destruct (strptime (Some "-"%char) ed) as [e'|e]; [|discriminate].
  cbn [Py.bind] in H.
  destruct (e' <=? s)%Z; [inversion H; reflexivity|].
  destruct (365 <? delta_days e' s)%Z; [inversion H; reflexivity|discriminate].
Qed.

Lemma generate_body_outcome (h : PVModelHandler) (fetch : data_source)
      (data : option request_data) :
  match fst (generate_body h fetch data) with
  | Ok r => status r = 400%Z
  | Raise _ => True
  end.
Proof.
  unfold generate_body. destruct data as [data|]; [|exact I].
  destruct (check_request data) as [[[[[[lat lon] cap] sd] ed]|resp]|e] eqn:E.
  - apply serve_outcome.
  - simpl. apply (check_request_early data resp E).
  - exact I.
Qed.

(** Every answer of the end point is an error answer. *)
Lemma generate_predictions_never_200 (mh : option PVModelHandler)
      (fetch : data_source) (data : option request_data) :
  status (fst (generate_predictions mh fetch data)) = 400%Z \/
  status (fst (generate_predictions mh fetch data)) = 500%Z.
Proof.
  unfold generate_predictions. destruct mh as [h|]; [|right; reflexivity].
  destruct (is_loaded h); simpl; [|right; reflexivity].
  pose proof (generate_body_outcome h fetch data) as H.
  destruct (generate_body h fetch data) as [[r|e] tr]; simpl in *.
  - left. exact H.
  - destruct (is_ValueError e); [left|right]; reflexivity.
Qed.

End AppFacts.

Module AppClaims.

Import Dates Handler App Fixtures ClientFixtures AppFixtures AppFacts.

(** C1 at its own scenario.  With the stub model that answers 5.0 per
    row loaded, the provider returning the three days 2023-06-01 to
    2023-06-03 and the request carrying capacity 2.0, the end point calls
    [predict(df, capacity=capacity)]; [predict] takes no such argument,
    the TypeError reaches the generic handler, and the answer is a 500
    error without any prediction row.  Called without the keyword,
    [predict] returns 5.0 for each of the three rows, not scaled. *)
Theorem predictions_endpoint_scenario :
  is_loaded stub5 = true /\
  predict stub5 june_df = Ok [num 5; num 5; num 5] /\
  generate_predictions (Some stub5) june_source (Some scenario_request)
  = (mkResponse 500
       (ErrorBody "Prediction generation failed: PVModelHandler.predict() got an unexpected keyword argument 'capacity'"),
     [EvFetch casablanca_lat casablanca_lon "2023-06-01" "2023-06-03";
      EvPredict june_df]).
Proof. repeat split. Qed.

(** C10, as the code has it.  With a loaded handler and a request whose
    numeric fields are numbers and whose two dates parse, the end point
    answers 400 without any fetch or model call when the start date is
    equal to or after the end date, and when the range is longer than
    365 days.  The client's own [validate_dates] is weaker: it accepts a
    range of one day (start equal to end) and ordered ranges of any
    length from the provider's first day on. *)
Theorem predictions_reject_bad_range :
  (forall h fetch data lat lon sd ed s e,
     is_loaded h = true ->
     latitude data = FNum lat -> longitude data = FNum lon ->
     (exists cap, capacity_of (capacity data) = Ok cap) ->
     start_date data = Some sd -> end_date data = Some ed ->
     strptime (Some "-"%char) sd = Ok s -> strptime (Some "-"%char) ed = Ok e ->
     (e <= s \/ 365 < delta_days e s)%Z ->
     exists msg,
       generate_predictions (Some h) fetch (Some data)
       = (mkResponse 400 (ErrorBody msg), [])) /\
  (forall self now d dt,
     strptime None d = Ok dt -> (Client.min_date self <= dt)%Z ->
     exists ws, Client.validate_dates self now d d = Ok ws) /\
  (forall self now sd ed s e,
     strptime None sd = Ok s -> strptime None ed = Ok e ->
     (s <= e)%Z -> (Client.min_date self <= s)%Z ->
     exists ws, Client.validate_dates self now sd ed = Ok ws).
Proof.
  split; [|split].
  - intros h fetch data lat lon sd ed s e Hl Hlat Hlon [cap Hcap] Hsd Hed Hs He Hbad.
    unfold generate_predictions, generate_body, check_request.
    rewrite Hl, Hlat, Hlon, Hcap, Hsd, Hed. cbn [negb float_of text_of Py.bind].
    destruct (negb (in_coordinates lat lon)); [eexists; reflexivity|].
    rewrite Hs, He. cbn [Py.bind].
    destruct (e <=? s)%Z eqn:E1; [eexists; reflexivity|].
    destruct (365 <? delta_days e s)%Z eqn:E2; [eexists; reflexivity|].
    exfalso. apply Z.leb_gt in E1. apply Z.ltb_ge in E2. lia.
  - intros self now d dt Hd Hmin. eexists.
    apply (DateFacts.validate_dates_accepts self now d d dt dt Hd Hd);
      [lia|exact Hmin].
  - intros self now sd ed s e Hs He Hle Hmin. eexists.
    apply (DateFacts.validate_dates_accepts self now sd ed s e Hs He Hle Hmin).
Qed.

Lemma predictions_reject_bad_range_witness :
  (exists msg,
     generate_predictions (Some stub5) june_source (Some same_day_request)
     = (mkResponse 400 (ErrorBody msg), [])) /\
  (exists msg,
     generate_predictions (Some stub5) june_source (Some two_year_request)
     = (mkResponse 400 (ErrorBody msg), [])) /\
  (exists ws, Client.validate_dates (Client.init a_later_day) a_later_day
                "20230601" "20230601" = Ok ws) /\
  (exists ws, Client.validate_dates (Client.init a_later_day) a_later_day
                "20210601" "20230601" = Ok ws).
Proof.
  destruct predictions_reject_bad_range as (H1 & H2 & H3).
  split; [|split; [|split]].
  - apply (H1 stub5 june_source same_day_request casablanca_lat casablanca_lon
              "2023-06-01" "2023-06-01" (of_ymd 2023 6 1) (of_ymd 2023 6 1)
              eq_refl eq_refl eq_refl (ex_intro _ (Fin (qz 1)) eq_refl)
              eq_refl eq_refl eq_refl eq_refl).
    left. vm_compute. discriminate.
  - apply (H1 stub5 june_source two_year_request casablanca_lat casablanca_lon
              "2021-06-01" "2023-06-01" (of_ymd 2021 6 1) (of_ymd 2023 6 1)
              eq_refl eq_refl eq_refl (ex_intro _ (Fin (qz 1)) eq_refl)
              eq_refl eq_refl eq_refl eq_refl).
    right. vm_compute. reflexivity.
  - apply (H2 (Client.init a_later_day) a_later_day "20230601" (of_ymd 2023 6 1)
              eq_refl).
    vm_compute. discriminate.
  - apply (H3 (Client.init a_later_day) a_later_day "20210601" "20230601"
              (of_ymd 2021 6 1) (of_ymd 2023 6 1) eq_refl eq_refl).
    + vm_compute. discriminate.
    + vm_compute. discriminate.
Defined.

(** The two rejections of the sample requests, in full. *)
Example predictions_rejections :
  generate_predictions (Some stub5) june_source (Some same_day_request)
  = (mkResponse 400 (ErrorBody "Start date must be before end date"), []) /\
  generate_predictions (Some stub5) june_source (Some two_year_request)
  = (mkResponse 400 (ErrorBody "Date range cannot exceed 1 year"), []).
Proof. split; reflexivity. Qed.

(** C10, as stated, fails when no model is loaded: the guard on the
    handler comes first and answers 500, also for a request whose start
    date equals its end date. *)
Lemma predictions_unloaded_is_500 :
  strptime (Some "-"%char) "2023-06-01" = Ok (of_ymd 2023 6 1) /\
  generate_predictions None june_source (Some same_day_request)
  = (mkResponse 500 (ErrorBody "Model not loaded"), []).
Proof. split; reflexivity. Qed.

End AppClaims.

(* ================================================================== *)
(** * Further properties of preprocessing and prediction *)
(* ================================================================== *)

Module PreprocessMore.

Import Spec Handler PreprocessFacts PredictFacts Fixtures AppFixtures.

Lemma repaired_fixed (l : list cell) :
  map (repaired (map (repaired l) l)) (map (repaired l) l) = map (repaired l) l.
Proof.
  rewrite <- (second_pass_repairs (map (repaired l) l)).
  apply second_pass_after_repair.
Qed.

Lemma repair_column_idem (c : column) :
  repair_column (repair_column c) = repair_column c.
Proof.
  unfold repair_column; simpl. f_equal. apply repaired_fixed.
Qed.

Lemma preprocess_twice (df : DataFrame) :
  preprocess_data (preprocess_data df) = preprocess_data df.
Proof.
  rewrite !preprocess_data_repair; simpl. f_equal.
  rewrite map_map. apply map_ext. intros c. apply repair_column_idem.
Qed.

(** X1. Preprocessing twice is preprocessing once. *)
Theorem preprocess_data_idempotent (df : DataFrame) :
  preprocess_data (preprocess_data df) = preprocess_data df.
Proof. apply preprocess_twice. Qed.





Lemma preprocess_finite_table (df : DataFrame) :
  Forall (fun c => forallb isfinite (cvals c) = true) (columns df) ->
  preprocess_data df = df.
Proof.
  intros H. rewrite preprocess_data_repair. destruct df as [idx cols]; simpl in *.
  f_equal. rewrite <- (map_id cols) at 2.
  apply map_ext_in. intros c Hc.
  rewrite Forall_forall in H. specialize (H c Hc).
  destruct c as [n l]; unfold repair_column; simpl in *. f_equal.
  rewrite <- (map_id l) at 3. apply map_ext_in. intros x Hx.
  rewrite forallb_forall in H. specialize (H x Hx).
  destruct x; simpl in *; try discriminate. reflexivity.
Qed.

(** X3. A table of finite cells goes through unchanged. *)
Theorem preprocess_data_finite_unchanged (df : DataFrame) :
  Forall (fun c => forallb isfinite (cvals c) = true) (columns df) ->
  preprocess_data df = df.
Proof. apply preprocess_finite_table. Qed.

Lemma preprocess_data_finite_unchanged_witness :
  Forall (fun c => forallb isfinite (cvals c) = true) (columns june_df) /\
  preprocess_data june_df = june_df.
Proof.
  assert (H : Forall (fun c => forallb isfinite (cvals c) = true) (columns june_df))
    by (repeat constructor).
  split; [exact H|]. apply (preprocess_data_finite_unchanged june_df H).
Defined.

Lemma empty_preprocess (df : DataFrame) : empty (preprocess_data df) = empty df.
Proof.
  rewrite preprocess_data_repair. unfold empty, nrows, ncols; simpl.
  rewrite length_map. reflexivity.
Qed.

Lemma nrows_preprocess (df : DataFrame) : nrows (preprocess_data df) = nrows df.
Proof. rewrite preprocess_data_repair. reflexivity. Qed.

(** X4. Cleaning the table beforehand does not change the prediction or the
    error: [predict] depends on the table only through its repaired
    form. *)
Theorem predict_of_preprocessed (h : PVModelHandler) (df : DataFrame) :
  predict h (preprocess_data df) = predict h df.
Proof.
  unfold predict. destruct (negb (is_loaded h)); [reflexivity|].
  destruct (model h) as [a|]; [|reflexivity].
  unfold validate_input_data. rewrite empty_preprocess.
  destruct (empty df); [reflexivity|]. cbn [Py.bind].
  rewrite preprocess_twice, nrows_preprocess. reflexivity.
Qed.

(** X5. A successful [predict] answers a non-empty table with exactly one
    value per row. *)
Theorem predict_one_value_per_row (h : PVModelHandler) (df : DataFrame)
        (out : list cell) :
  predict h df = Ok out ->
  List.length out = nrows df /\ (0 < nrows df)%nat /\ (0 < ncols df)%nat /\
  is_loaded h = true.
Proof.
  intros H. destruct (predict_ok_inv h df out H)
    as (a & raw & Hl & _ & He & _ & _ & Hlen).
  unfold empty in He. apply orb_false_elim in He as [H1 H2].
  apply Nat.eqb_neq in H1. apply Nat.eqb_neq in H2.
  repeat split; try assumption; lia.
Qed.

Lemma predict_one_value_per_row_witness :
  predict stub5 june_df = Ok [num 5; num 5; num 5] /\
  List.length [num 5; num 5; num 5] = nrows june_df /\
  (0 < nrows june_df)%nat /\ (0 < ncols june_df)%nat /\ is_loaded stub5 = true.
Proof.
  split; [reflexivity|].
  apply (predict_one_value_per_row stub5 june_df [num 5; num 5; num 5]).
  reflexivity.
Defined.

(** X6. The failures of [predict]: an empty table is refused whatever the
    model is; a model that raises has its exception passed on as it is;
    a direct model that answers with another number of values than rows
    is refused as a length mismatch. *)
Theorem predict_failures (h : PVModelHandler) (a : active) (df : DataFrame) :
  is_loaded h = true -> model h = Some a ->
  (empty df = true -> predict h df = Raise (ValueError "Input data is empty")) /\
  (forall e, empty df = false ->
     model_predict a (preprocess_data df) = Raise e -> predict h df = Raise e) /\
  (forall m p, a = ADirect m -> empty df = false ->
     reg_predict m (preprocess_data df) = Ok p -> List.length p <> nrows df ->
     predict h df = Raise (ValueError "Prediction length mismatch")).
Proof.
  intros Hl Hm. unfold predict, validate_input_data. rewrite Hl, Hm. simpl.
  split; [|split].
  - intros He. rewrite He. reflexivity.
  - intros e He Hp. rewrite He. cbn [Py.bind]. rewrite Hp. reflexivity.
  - intros m p -> He Hp Hn. rewrite He. cbn [Py.bind model_predict].
    rewrite Hp. cbn [Py.bind nd_maximum0]. rewrite length_map.
    apply Nat.eqb_neq in Hn. rewrite Hn. reflexivity.
Qed.

Lemma predict_failures_witness :
  predict stub5 (mkDF [] []) = Raise (ValueError "Input data is empty").
Proof.
  apply (proj1 (predict_failures stub5 (ADirect (const_model (num 5)))
                  (mkDF [] []) eq_refl eq_refl)).
  reflexivity.
Defined.

End PreprocessMore.

(* ================================================================== *)
(** * Further properties of loading, the probe and the summary *)
(* ================================================================== *)

Module LifecycleFacts.

Import Handler Lifecycle Summary Fixtures EnsembleFixtures AppFixtures.

(** Everything a call of [load_model] leaves behind. *)
Lemma load_model_outcome (fs : file_state) (h : PVModelHandler) :
  match load_model fs h with
  | (h', Ok _) =>
      is_loaded h' = true /\
      exists a, model h' = Some a /\ model_info h' <> None /\
        forall e, a = AEnsemble e ->
          ensemble_info h' = Some (get_model_info e) /\
          models e <> [] /\
          model_names e = dict_keys (models e) /\
          print_weights (weights e) = Ok tt
  | (h', Raise _) => is_loaded h' = false /\ model h' = None
  end.
Proof.
  unfold load_model, load_body.
  destruct fs as [|msg|o]; try (split; reflexivity).
  destruct o as [m|c|d|ty]; try (split; reflexivity).
  - simpl. split; [reflexivity|]. exists (ADirect m).
    repeat split; try discriminate.
  - unfold dict_has, EnsembleModel_init.
    destruct (dict_get d "models") as [om|] eqn:Em;
      destruct (dict_get d "weights") as [ow|] eqn:Ew; cbn [andb].
    1: { destruct om as [m|c|ms|ty]; try (split; reflexivity).
         cbn [weights].
         destruct (print_weights ow) as [[]|ex] eqn:Ep; [|split; reflexivity].
         unfold _extract_model_info. cbn [model set_is_loaded set_ensemble_info set_model].
         unfold ensemble_n_features. cbn [models].
         destruct ms as [|[k0 o0] ms]; [split; reflexivity|].
         assert (Hfin : forall fc,
           is_loaded (set_model_info
             (set_is_loaded
                (set_ensemble_info
                   (set_model h (Some (AEnsemble (mkEnsemble ((k0, o0) :: ms) ow
                                                   (dict_keys ((k0, o0) :: ms))))))
                   (Some (get_model_info (mkEnsemble ((k0, o0) :: ms) ow
                                            (dict_keys ((k0, o0) :: ms))))))
                true) fc) = true) by reflexivity.
         destruct o0; simpl; (split; [reflexivity|]);
           eexists; (split; [reflexivity|]); (split; [discriminate|]);
           intros e He; inversion He; subst; simpl;
           repeat split; try discriminate; exact Ep. }
    all: destruct (find_model possible_keys d) as [m|]; [|split; reflexivity];
      simpl; (split; [reflexivity|]); exists (ADirect m);
      repeat split; discriminate.
Qed.

End LifecycleFacts.

Module LifecycleClaims.

Import Handler Lifecycle Summary Fixtures EnsembleFixtures AppFixtures.
Import LifecycleFacts MoreFixtures.



(** X8. What a successful load of a weighted ensemble guarantees: the
    bundle had at least one model, and every value of its weight mapping
    is a number, the weights that name no model included. *)
Theorem loaded_ensemble_guarantees (fs : file_state) (h h' : PVModelHandler)
        (e : EnsembleModel) :
  load_model fs h = (h', Ok tt) -> model h' = Some (AEnsemble e) ->
  models e <> [] /\
  model_names e = dict_keys (models e) /\
  exists kvs, weights e = PDict kvs /\
              Forall (fun kv => exists c, snd kv = PNum c) kvs.
Proof.
  intros H Hm. pose proof (load_model_outcome fs h) as Ho. rewrite H in Ho.
  destruct Ho as (_ & a & Ha & _ & He).
  rewrite Hm in Ha. inversion Ha; subst a.
  destruct (He e eq_refl) as (_ & Hne & Hn & Hp).
  split; [exact Hne|]. split; [exact Hn|].
  unfold print_weights in Hp.
  destruct (weights e) as [m|c|kvs|ty]; try discriminate.
  exists kvs. split; [reflexivity|].
  destruct (forallb _ kvs) eqn:E; [|discriminate].
  rewrite forallb_forall in E. apply Forall_forall. intros kv Hin.
  specialize (E kv Hin). destruct (snd kv); try discriminate. eauto.
Qed.

Lemma loaded_ensemble_guarantees_witness :
  models (ab_ensemble half half) <> [] /\
  model_names (ab_ensemble half half) = dict_keys (models (ab_ensemble half half)) /\
  exists kvs, weights (ab_ensemble half half) = PDict kvs /\
              Forall (fun kv => exists c, snd kv = PNum c) kvs.
Proof.
  apply (loaded_ensemble_guarantees (Pickled ab_bundle)
           (mkHandler "final_pv_model.pkl" None None false None)
           (fst (load_model (Pickled ab_bundle)
                   (mkHandler "final_pv_model.pkl" None None false None)))
           (ab_ensemble half half)).
  - reflexivity.
  - reflexivity.
Defined.

(** X9. Reloading a plain model over a handler that once held an ensemble
    keeps the old ensemble's description: [ensemble_info] is never
    cleared, and the fresh [model_info] embeds it. *)
Theorem reload_keeps_stale_ensemble_info (h : PVModelHandler) (m : regressor)
        (ei : ensemble_info_t) :
  ensemble_info h = Some ei ->
  reload_model (Pickled (PModel m)) h
  = (mkHandler (model_path h) (Some (ADirect m))
               (Some (mkInfo (reg_type m) (n_features_in_ m) (Some ei)))
               true (Some ei),
     Ok tt).
Proof.
  intros H. unfold reload_model, load_model, load_body, _extract_model_info.
  simpl. unfold set_model_info, set_is_loaded, set_model. simpl.
  rewrite H. reflexivity.
Qed.

Lemma reload_keeps_stale_ensemble_info_witness :
  ensemble_info (handler_of ab_bundle)
  = Some (get_model_info (ab_ensemble half half)) /\
  reload_model (Pickled (PModel (const_model (num 5)))) (handler_of ab_bundle)
  = (mkHandler "final_pv_model.pkl" (Some (ADirect (const_model (num 5))))
               (Some (mkInfo "StubRegressor" None
                             (Some (get_model_info (ab_ensemble half half)))))
               true (Some (get_model_info (ab_ensemble half half))),
     Ok tt).
Proof.
  split; [reflexivity|].
  apply (reload_keeps_stale_ensemble_info (handler_of ab_bundle)
           (const_model (num 5)) (get_model_info (ab_ensemble half half))).
  reflexivity.
Defined.

End LifecycleClaims.

Module ProbeClaims.

Import Handler Summary Endpoints Fixtures AppFixtures PredictFacts PreprocessMore.

Lemma length_add_dummies (k : nat) (cols : list column) :
  List.length (add_dummies k cols) = (List.length cols + k)%nat.
Proof.
  revert cols. induction k as [|k IH]; intros cols; simpl; [lia|].
  rewrite IH, length_app. simpl. lia.
Qed.

Lemma add_dummies_single_finite (k : nat) (cols : list column) :
  Forall (fun c => exists q, cvals c = [Fin q]) cols ->
  Forall (fun c => exists q, cvals c = [Fin q]) (add_dummies k cols).
Proof.
  revert cols. induction k as [|k IH]; intros cols H; simpl; [exact H|].
  apply IH. apply Forall_app. split; [exact H|].
  constructor; [|constructor]. eexists. reflexivity.
Qed.

Lemma test_data_single_finite (h : PVModelHandler) :
  Forall (fun c => exists q, cvals c = [Fin q]) (columns (test_data h)).
Proof.
  unfold test_data; simpl. apply add_dummies_single_finite.
  repeat constructor; eexists; reflexivity.
Qed.

(** X10. The health probe: one row; the five fixed columns padded to the
    model's feature count, never fewer than five; every cell a finite
    number.  It passes input validation and preprocessing leaves it as
    built, so the model is asked about exactly this table. *)
Theorem health_probe_table (h : PVModelHandler) :
  nrows (test_data h) = 1%nat /\
  (forall i n, model_info h = Some i -> feature_count i = Some n ->
     ncols (test_data h) = Nat.max 5 n) /\
  (5 <= ncols (test_data h))%nat /\
  Forall (fun c => exists q, cvals c = [Fin q]) (columns (test_data h)) /\
  preprocess_data (test_data h) = test_data h /\
  exists ws, validate_input_data h (test_data h) = Ok ws.
Proof.
  pose proof (test_data_single_finite h) as Hfin.
  assert (Hn : forall k, ncols (mkDF ["0"] (add_dummies k base_test_columns))
                         = (5 + k)%nat).
  { intros k. unfold ncols; simpl. rewrite length_add_dummies. reflexivity. }
  split; [reflexivity|]. split.
  { intros i n Hi Hf. unfold test_data. rewrite Hi, Hf, Hn.
    change (List.length base_test_columns) with 5%nat. lia. }
  split.
  { unfold test_data. rewrite Hn. lia. }
  split; [exact Hfin|]. split.
  - apply preprocess_finite_table.
    eapply Forall_impl; [|exact Hfin]. intros c [q Hq]. rewrite Hq. reflexivity.
  - unfold validate_input_data.
    assert (He : empty (test_data h) = false).
    { unfold empty, test_data. rewrite Hn. reflexivity. }
    rewrite He. eexists. reflexivity.
Qed.

(** X11. The [/health] answer: its status text is "healthy" whatever the
    state; the nested report is healthy only for a loaded handler, so
    [model_health.healthy] implies [model_loaded]; without a handler
    the report says so. *)
Theorem health_check_answer (mh : option PVModelHandler) :
  status_text (health_check mh) = "healthy" /\
  (healthy (model_health (health_check mh)) = true ->
   model_loaded (health_check mh) = true) /\
  (mh = None ->
   model_health (health_check mh) = unhealthy "Handler not initialized" /\
   model_loaded (health_check mh) = false).
Proof.
  split; [reflexivity|]. split.
  - destruct mh as [h|]; simpl; [|discriminate].
    unfold validate_model_health. destruct (is_loaded h); simpl; [reflexivity|].
    discriminate.
  - intros ->. split; reflexivity.
Qed.

Lemma health_check_answer_witness :
  model_loaded (health_check (Some stub5)) = true.
Proof.
  apply (proj1 (proj2 (health_check_answer (Some stub5)))).
  reflexivity.
Defined.

(** X12. [predict_single_day]: an empty record is refused as empty input; an
    answer is the single value [predict] returns for the one-row table,
    hence non-negative unless it is NaN. *)
Theorem predict_single_day_cases (h : PVModelHandler) :
  (is_loaded h = true -> model h <> None ->
   predict_single_day h [] = Raise (ValueError "Input data is empty")) /\
  (forall row p, predict_single_day h row = Ok p ->
     predict h (single_row_frame row) = Ok [p] /\
     row <> [] /\
     (isnan p = false -> nonneg p = true)).
Proof.
  split.
  - intros Hl Hm. unfold predict_single_day, predict. rewrite Hl.
    destruct (model h) as [a|]; [|congruence]. reflexivity.
  - intros row p H. unfold predict_single_day in H.
    destruct (predict h (single_row_frame row)) as [ps|e] eqn:E; [|discriminate].
    destruct (predict_ok_inv h _ ps E) as (a & raw & _ & _ & He & _ & Hout & Hlen).
    cbn [Py.bind] in H. destruct ps as [|p0 [|p1 ps]]; try discriminate.
    inversion H; subst p0. split; [reflexivity|]. split.
    + intros ->. discriminate He.
    + intros Hn. destruct raw as [|v raw]; [discriminate|].
      simpl in Hout. injection Hout as Hp Hr. subst p.
      apply maximum0_nonneg.
      destruct v as [x| | |]; simpl in Hn |- *; try reflexivity; discriminate.
Qed.

Lemma predict_single_day_cases_witness :
  predict_single_day stub5 [] = Raise (ValueError "Input data is empty") /\
  predict stub5 (single_row_frame [("T2M", num 25)]) = Ok [num 5].
Proof.
  split.
  - apply (proj1 (predict_single_day_cases stub5)); [reflexivity|discriminate].
  - apply (proj2 (predict_single_day_cases stub5) [("T2M", num 25)] (num 5)).
    reflexivity.
Defined.

End ProbeClaims.

(* ================================================================== *)
(** * Further properties of savings and summary *)
(* ================================================================== *)

Module SummaryFacts.

Import Spec Handler Summary Fixtures PredictFacts.


















End SummaryFacts.

Module SummaryClaims.

Import Spec Handler Summary Fixtures PredictFacts SummaryFacts.




End SummaryClaims.

(* ================================================================== *)
(** * Further properties of the ensemble and of the data client *)
(* ================================================================== *)

Module EnsembleMore.

Import Spec BlendSpec Fixtures EnsembleFixtures MoreFixtures EnsembleFacts.






End EnsembleMore.

Module ClientMore.

Import Dates Client RetrySpec Spec Fixtures ClientFixtures PredictFacts RetryFacts.

Lemma leb_fin (a : Qc) (c : cell) :
  leb (Fin a) c = true <-> c = PInf \/ exists x, c = Fin x /\ (a <= x)%Qc.
Proof.
  destruct c as [x| | |]; simpl; split; intros H.
  - right. exists x. split; [reflexivity|]. apply Qc_leb_le. exact H.
  - destruct H as [H|(y & Hy & Hle)]; [discriminate|].
    inversion Hy; subst. apply Qc_leb_le. exact Hle.
  - left. reflexivity.
  - reflexivity.
  - discriminate.
  - destruct H as [H|(y & Hy & _)]; discriminate.
  - discriminate.
  - destruct H as [H|(y & Hy & _)]; discriminate.
Qed.

Lemma fin_leb (a : Qc) (c : cell) :
  leb c (Fin a) = true <-> c = NInf \/ exists x, c = Fin x /\ (x <= a)%Qc.
Proof.
  destruct c as [x| | |]; simpl; split; intros H.
  - right. exists x. split; [reflexivity|]. apply Qc_leb_le. exact H.
  - destruct H as [H|(y & Hy & Hle)]; [discriminate|].
    inversion Hy; subst. apply Qc_leb_le. exact Hle.
  - discriminate.
  - destruct H as [H|(y & Hy & _)]; discriminate.
  - left. reflexivity.
  - reflexivity.
  - discriminate.
  - destruct H as [H|(y & Hy & _)]; discriminate.
Qed.

Lemma in_interval (lo hi : Qc) (c : cell) :
  leb (Fin lo) c && leb c (Fin hi) = true <->
  exists x, c = Fin x /\ (lo <= x)%Qc /\ (x <= hi)%Qc.
Proof.
  rewrite andb_true_iff, leb_fin, fin_leb. split.
  - intros [[H1|(x & Hx & Hlo)] [H2|(y & Hy & Hhi)]]; subst; try discriminate.
    inversion Hy; subst. exists y. auto.
  - intros (x & -> & Hlo & Hhi). split; right; exists x; auto.
Qed.

(** X16. [validate_coordinates] accepts exactly the finite pairs with
    latitude in [-90, 90] and longitude in [-180, 180] (NaN and the
    infinities are refused); every refusal is a ValueError; and the end
    point's own coordinate check accepts the same pairs. *)
Theorem validate_coordinates_exact (latitude longitude : cell) :
  (validate_coordinates latitude longitude = Ok true <->
   exists x y, latitude = Fin x /\ longitude = Fin y /\
     (qz (-90) <= x)%Qc /\ (x <= qz 90)%Qc /\
     (qz (-180) <= y)%Qc /\ (y <= qz 180)%Qc) /\
  (validate_coordinates latitude longitude = Ok true \/
   exists msg, validate_coordinates latitude longitude = Raise (ValueError msg)) /\
  (App.in_coordinates latitude longitude = true <->
   validate_coordinates latitude longitude = Ok true).
Proof.
  unfold validate_coordinates, App.in_coordinates.
  pose proof (in_interval (qz (-90)) (qz 90) latitude) as Hlat.
  pose proof (in_interval (qz (-180)) (qz 180) longitude) as Hlon.
  destruct (leb (Fin (qz (-90))) latitude && leb latitude (Fin (qz 90))) eqn:E1;
    destruct (leb (Fin (qz (-180))) longitude && leb longitude (Fin (qz 180))) eqn:E2;
    simpl.
  - split; [|split; [left; reflexivity|split; reflexivity]].
    split; [intros _|reflexivity].
    destruct (proj1 Hlat eq_refl) as (x & -> & H1 & H2).
    destruct (proj1 Hlon eq_refl) as (y & -> & H3 & H4).
    exists x, y. repeat split; assumption.
  - split; [|split; [right; eexists; reflexivity|split; discriminate]].
    split; [discriminate|].
    intros (x & y & -> & -> & H1 & H2 & H3 & H4).
    assert (false = true) by (apply Hlon; exists y; auto). discriminate.
  - split; [|split; [right; eexists; reflexivity|split; discriminate]].
    split; [discriminate|].
    intros (x & y & -> & -> & H1 & H2 & H3 & H4).
    assert (false = true) by (apply Hlat; exists x; auto). discriminate.
  - split; [|split; [right; eexists; reflexivity|split; discriminate]].
    split; [discriminate|].
    intros (x & y & -> & -> & H1 & H2 & H3 & H4).
    assert (false = true) by (apply Hlat; exists x; auto). discriminate.
Qed.

Section Loop.

Variable t : transport.
Variable max_retries : Z.
Variable retry_delay : Qc.

(** Requests never outnumber [max_retries], and every request but the
    last of a call is followed by exactly one sleep. *)
Lemma retry_loop_budget :
  forall remaining attempt,
    (attempt + remaining)%nat = Z.to_nat max_retries ->
    let tr := snd (retry_loop t max_retries retry_delay remaining attempt) in
    (requests_made tr <= remaining)%nat /\
    ((1 <= remaining)%nat -> requests_made tr = S (List.length (sleeps tr))).
Proof.
  induction remaining as [|r IH]; intros a Hn;
    [unfold requests_made; simpl; split; lia|].
  cbn [retry_loop].
  destruct (t a) as [e|data].
  - destruct (Z.of_nat a <? max_retries - 1)%Z eqn:E.
    + destruct (Qc_ltb (retry_delay * pow2 a)%Qc q0).
      * simpl. split; [unfold requests_made; simpl; lia|reflexivity].
      * specialize (IH (S a) ltac:(lia)).
        destruct (retry_loop t max_retries retry_delay r (S a)) as [res tr].
        cbn [snd] in *. destruct IH as [IH1 IH2].
        assert (Hr : (1 <= r)%nat) by (apply Z.ltb_lt in E; lia).
        unfold requests_made, sleeps in *. simpl. split; [lia|].
        intros _. rewrite (IH2 Hr). reflexivity.
    + simpl. split; [unfold requests_made; simpl; lia|reflexivity].
  - destruct (has_api_error data); cbn [snd].
    + split; [unfold requests_made; simpl; lia|reflexivity].
    + change (EvRequest a :: source_warning data)
        with ([EvRequest a] ++ source_warning data).
      rewrite requests_made_app, requests_source_warning.
      rewrite sleeps_app, sleeps_source_warning.
      split; [unfold requests_made; simpl; lia|reflexivity].
Qed.

Hypothesis delay_nonneg : (0 <= retry_delay)%Qc.


End Loop.

(** X17. The request budget of [fetch_data]: whatever the transport does, it
    makes at most [max_retries] requests (none when that is zero or
    negative), and it sleeps exactly once between consecutive requests
    and never after the last one. *)
Theorem fetch_data_request_budget
        (self : NASAPowerGEOSITClient) (now : datetime) (t : transport)
        (lat lon : cell) (sd ed : string) (max_retries : Z) (retry_delay : Qc) :
  let tr := snd (fetch_data self now t lat lon sd ed max_retries retry_delay) in
  (requests_made tr <= Z.to_nat max_retries)%nat /\
  (requests_made tr = 0%nat /\ sleeps tr = [] \/
   requests_made tr = S (List.length (sleeps tr))).
Proof.
  unfold fetch_data.
  destruct (build_request_url self now lat lon sd ed) as [ws|e].
  2:{ simpl. split; [unfold requests_made; simpl; lia|left; split; reflexivity]. }
  destruct (Z.to_nat max_retries) as [|n] eqn:En.
  - simpl. rewrite app_nil_r, requests_warnings, sleeps_warnings.
    split; [lia|left; split; reflexivity].
  - pose proof (retry_loop_budget t max_retries retry_delay (S n) 0
                  (eq_sym En)) as H.
    destruct (retry_loop t max_retries retry_delay (S n) 0) as [res tr].
    cbn [snd] in *. destruct H as [H1 H2].
    rewrite requests_made_app, requests_warnings, sleeps_app, sleeps_warnings.
    simpl. split; [exact H1|]. right. apply H2. lia.
Qed.

End ClientMore.

Module RetryMore.

Import Dates Client RetrySpec Spec Fixtures ClientFixtures PredictFacts RetryFacts.
Import ClientMore MoreFixtures.











End RetryMore.

Module ParameterClaims.

Import Parameters.

Lemma existsb_eqb_in (k : string) (d : list string) :
  existsb (String.eqb k) d = true <-> In k d.
Proof.
  rewrite existsb_exists. split.
  - intros (x & Hin & He). apply String.eqb_eq in He. subst. exact Hin.
  - intros H. exists k. split; [exact H|apply String.eqb_refl].
Qed.

Lemma fromkeys_in (keys d : list string) (x : string) :
  In x (fromkeys keys d) <-> In x d \/ In x keys.
Proof.
  revert d. induction keys as [|k keys IH]; intros d; simpl.
  - tauto.
  - rewrite IH. destruct (existsb (String.eqb k) d) eqn:E.
    + apply existsb_eqb_in in E. split; [tauto|].
      intros [H|[<-|H]]; tauto.
    + rewrite in_app_iff. simpl. tauto.
Qed.

Lemma fromkeys_nodup (keys d : list string) :
  NoDup d -> NoDup (fromkeys keys d).
Proof.
  revert d. induction keys as [|k keys IH]; intros d H; simpl; [exact H|].
  apply IH. destruct (existsb (String.eqb k) d) eqn:E; [exact H|].
  assert (Hk : ~ In k d).
  { intros Hin. apply existsb_eqb_in in Hin. congruence. }
  clear E IH. induction d as [|y d IHd]; simpl.
  - constructor; [intros []|constructor].
  - inversion H; subst. constructor.
    + rewrite in_app_iff. simpl. intros [Hy|[Hy|[]]]; [contradiction|].
      subst. apply Hk. left. reflexivity.
    + apply IHd; [assumption|]. intros Hin. apply Hk. right. exact Hin.
Qed.

(** The keys already inserted keep their places. *)
Lemma fromkeys_prefix (keys d : list string) :
  exists rest, fromkeys keys d = d ++ rest.
Proof.
  revert d. induction keys as [|k keys IH]; intros d; simpl.
  - exists []. symmetry. apply app_nil_r.
  - destruct (existsb (String.eqb k) d); [apply IH|].
    destruct (IH (d ++ [k])) as [rest Hr]. exists (k :: rest).
    rewrite Hr, <- app_assoc. reflexivity.
Qed.

Lemma dict_get_in {V} (d : list (string * V)) (k : string) (v : V) :
  dict_get d k = Some v -> In (k, v) d.
Proof.
  induction d as [|[k0 v0] d IH]; simpl; [discriminate|].
  destruct (String.eqb_spec k0 k) as [->|Hne].
  - intros H. inversion H. left. reflexivity.
  - intros H. right. apply IH. exact H.
Qed.

Lemma get_all_of_in (sets : list (string * list string)) (x : string) :
  In x (get_all_of sets) <-> exists name ps, In (name, ps) sets /\ In x ps.
Proof.
  unfold get_all_of, all_params. rewrite fromkeys_in. simpl.
  rewrite in_concat. split.
  - intros [[]|(l & Hl & Hx)]. apply in_map_iff in Hl as ([n ps] & <- & Hs).
    exists n, ps. auto.
  - intros (n & ps & Hs & Hx). right. exists ps. split; [|exact Hx].
    apply in_map_iff. exists (n, ps). auto.
Qed.

Lemma named_set_included (name : string) (ps : list string) :
  dict_get pv_parameters name = Some ps -> incl ps get_all_pv_parameters.
Proof.
  intros Hget x Hx. unfold get_all_pv_parameters.
  apply (proj2 (get_all_of_in pv_parameters x)).
  exists name, ps. split; [apply dict_get_in; exact Hget|exact Hx].
Qed.

Lemma named_set_nonempty (name : string) (ps : list string) :
  dict_get pv_parameters name = Some ps -> ps <> [].
Proof.
  intros Hget. apply dict_get_in in Hget.
  destruct Hget as [H|[H|[H|[]]]]; inversion H; discriminate.
Qed.

(** X21. [get_all_pv_parameters], for any table of parameter sets: the
    result has no duplicate and holds exactly the parameters that occur
    in some set; in particular every parameter of every named set of the
    client is in it. *)
Theorem get_all_parameters_deduplicated (sets : list (string * list string)) :
  NoDup (get_all_of sets) /\
  (forall x, In x (get_all_of sets) <->
             exists name ps, In (name, ps) sets /\ In x ps) /\
  (forall name ps, dict_get pv_parameters name = Some ps ->
                   incl ps get_all_pv_parameters).
Proof.
  split; [apply fromkeys_nodup; constructor|].
  split; [apply get_all_of_in|apply named_set_included].
Qed.

(** X22. The parameter selection of [fetch_data] never yields an empty list:
    a non-empty custom list is used as given; an empty or absent one
    falls back to the named set, and a name that is neither "all" nor
    one of the three sets silently selects the essential set.  Without a
    custom list every selected parameter is one of the client's own. *)
Theorem select_parameters_never_empty
        (custom : option (list string)) (parameter_set : string) :
  select_parameters custom parameter_set <> [] /\
  (forall p ps, custom = Some (p :: ps) ->
     select_parameters custom parameter_set = p :: ps) /\
  (custom = None \/ custom = Some [] ->
   select_parameters custom parameter_set = select_parameters None parameter_set /\
   incl (select_parameters custom parameter_set) get_all_pv_parameters /\
   (parameter_set <> "all" -> dict_get pv_parameters parameter_set = None ->
    select_parameters custom parameter_set = essential)).
Proof.
  assert (Hall : get_all_pv_parameters <> []).
  { intros E.
    assert (Hin : In "T2M" get_all_pv_parameters).
    { apply (named_set_included "important" important); [reflexivity|].
      left. reflexivity. }
    rewrite E in Hin. exact Hin. }
  assert (Hnone : select_parameters None parameter_set <> [] /\
                  incl (select_parameters None parameter_set) get_all_pv_parameters /\
                  (parameter_set <> "all" ->
                   dict_get pv_parameters parameter_set = None ->
                   select_parameters None parameter_set = essential)).
  { unfold select_parameters.
    destruct (String.eqb_spec parameter_set "all") as [E|E].
    - split; [exact Hall|]. split; [apply incl_refl|congruence].
    - destruct (dict_get pv_parameters parameter_set) as [ps|] eqn:Eg.
      + split; [apply (named_set_nonempty parameter_set); exact Eg|].
        split; [|discriminate].
        apply (named_set_included parameter_set). exact Eg.
      + split; [discriminate|]. split; [|reflexivity].
        apply (named_set_included "essential"). reflexivity. }
  split; [|split].
  - destruct custom as [[|p ps]|]; try exact (proj1 Hnone). discriminate.
  - intros p ps ->. reflexivity.
  - intros [->| ->]; (split; [reflexivity|exact (proj2 Hnone)]).
Qed.

End ParameterClaims.

(* ================================================================== *)
(** * Further properties of the date texts *)
(* ================================================================== *)

Module DateMore.

Import Dates DateFormat Scrape Client Fixtures ClientFixtures.

Local Open Scope Z_scope.

Lemma in_range_list (lo n : nat) (z : Z) :
  Z.of_nat lo <= z < Z.of_nat (lo + n) -> In z (map Z.of_nat (seq lo n)).
Proof.
  intros H. apply in_map_iff. exists (Z.to_nat z). split; [lia|].
  apply in_seq. lia.
Qed.

(** A fact checked for every number of a range. *)
Lemma for_range (P : Z -> Prop) (lo n : nat) :
  Forall P (map Z.of_nat (seq lo n)) ->
  forall z, Z.of_nat lo <= z < Z.of_nat (lo + n) -> P z.
Proof.
  intros H z Hz. rewrite Forall_forall in H. apply H.
  apply in_range_list. exact Hz.
Qed.

Lemma digit_char_facts (k : Z) :
  0 <= k <= 9 ->
  is_digit (digit_char k) = true /\ digit (digit_char k) = k /\
  Ascii.eqb (digit_char k) "-" = false.
Proof.
  intros Hk.
  refine (for_range (fun k => is_digit (digit_char k) = true /\
                              digit (digit_char k) = k /\
                              Ascii.eqb (digit_char k) "-" = false) 0 10 _ k _);
    [repeat constructor|simpl; lia].
Qed.

(** The four digits of a year are read back as the year. *)
Lemma match_Y_pad4 (y : Z) (rest : string) :
  0 <= y <= 9999 -> match_Y (String.append (pad4 y) rest) = Some (y, rest).
Proof.
  intros Hy. unfold pad4, pad2. cbn [String.append]. unfold match_Y.
  assert (H1 : 0 <= y / 1000 <= 9) by (Z.to_euclidean_division_equations; lia).
  assert (H2 : 0 <= y / 100 mod 10 <= 9) by (Z.to_euclidean_division_equations; lia).
  assert (H3 : 0 <= y mod 100 / 10 <= 9) by (Z.to_euclidean_division_equations; lia).
  assert (H4 : 0 <= y mod 100 mod 10 <= 9) by (Z.to_euclidean_division_equations; lia).
  destruct (digit_char_facts _ H1) as (D1 & V1 & _).
  destruct (digit_char_facts _ H2) as (D2 & V2 & _).
  destruct (digit_char_facts _ H3) as (D3 & V3 & _).
  destruct (digit_char_facts _ H4) as (D4 & V4 & _).
  rewrite D1, D2, D3, D4, V1, V2, V3, V4. cbn [andb].
  do 2 f_equal.
  Z.to_euclidean_division_equations. lia.
Qed.

(** Month and day, written with two digits each, are read back by the
    month and day groups, whatever the year value carried along. *)
Lemma month_day_read_back (sep : option ascii) (y : Z) :
  sep = None \/ sep = Some "-"%char ->
  forall m, 1 <= m <= 12 -> forall d, 1 <= d <= 31 ->
  match skip sep (String.append (sep_text sep)
                    (String.append (pad2 m) (String.append (sep_text sep) (pad2 d)))) with
  | None => None
  | Some r1 =>
      hd_error
        (flat_map
           (fun mr : alt =>
              match skip sep (snd mr) with
              | None => []
              | Some r3 =>
                  map (fun dr : alt => (y, fst mr, fst dr, snd dr)) (alts_d r3)
              end)
           (alts_m r1))
  end = Some (y, m, d, EmptyString).
Proof.
  intros Hsep m Hm d Hd.
  revert d Hd.
  refine (for_range (fun m => forall d, 1 <= d <= 31 -> _ = Some (y, m, d, EmptyString))
                    1 12 _ m _); [|simpl; lia].
  destruct Hsep as [-> | ->];
    repeat (constructor;
            [intros d Hd;
             refine (for_range (fun d => _ = Some (y, _, d, EmptyString)) 1 31 _ d _);
             [repeat (constructor; [reflexivity|]); constructor|simpl; lia]|]);
    constructor.
Qed.

Lemma strptime_strftime (sep : option ascii) (y m d : Z) :
  sep = None \/ sep = Some "-"%char ->
  valid_ymd y m d ->
  strptime sep (strftime sep y m d) = Ok (of_ymd y m d).
Proof.
  intros Hsep (Hy & Hm & Hd).
  assert (Hd31 : 1 <= d <= 31).
  { unfold days_in_month in Hd.
    destruct (m =? 2); [destruct (is_leap y)|
      destruct ((m =? 4) || (m =? 6) || (m =? 9) || (m =? 11))%bool]; lia. }
  unfold strptime, regex_match, strftime.
  rewrite match_Y_pad4 by lia.
  rewrite (month_day_read_back sep y Hsep m Hm d Hd31).
  replace (y =? 0) with false by (symmetry; apply Z.eqb_neq; lia).
  replace (days_in_month y m <? d) with false by (symmetry; apply Z.ltb_ge; lia).
  reflexivity.
Qed.


Lemma contains_cons (needle : string) (c : ascii) (r : string) :
  contains needle r = true -> contains needle (String c r) = true.
Proof.
  intros H. cbn [contains]. rewrite H. apply orb_true_r.
Qed.

Lemma contains_dash_head (tail : string) :
  contains "-" (String "-" tail) = true.
Proof.
  cbn [contains]. apply orb_true_iff. left. destruct tail; reflexivity.
Qed.

Lemma remove_char_digit (k : Z) (r : string) :
  0 <= k <= 9 ->
  remove_char "-" (String (digit_char k) r) = String (digit_char k) (remove_char "-" r).
Proof.
  intros Hk. destruct (digit_char_facts k Hk) as (_ & _ & E).
  cbn [remove_char]. rewrite E. reflexivity.
Qed.

Lemma remove_char_dash (r : string) :
  remove_char "-" (String "-" r) = remove_char "-" r.
Proof. reflexivity. Qed.

Lemma pad2_digits (n : Z) :
  0 <= n <= 99 -> 0 <= n / 10 <= 9 /\ 0 <= n mod 10 <= 9.
Proof. intros H. Z.to_euclidean_division_equations. lia. Qed.

Lemma pad4_digits (y : Z) :
  0 <= y <= 9999 ->
  0 <= y / 1000 <= 9 /\ 0 <= y / 100 mod 10 <= 9 /\ 0 <= y mod 100 <= 99.
Proof. intros H. Z.to_euclidean_division_equations. lia. Qed.

(** Stripping the dashes of a year followed by a dash and a tail. *)
Lemma to_yyyymmdd_year (y : Z) (tail : string) :
  0 <= y <= 9999 ->
  to_yyyymmdd (String.append (pad4 y) (String "-" tail))
  = String.append (pad4 y) (remove_char "-" tail).
Proof.
  intros Hy. destruct (pad4_digits y Hy) as (H1 & H2 & H3).
  destruct (pad2_digits _ H3) as (H4 & H5).
  unfold to_yyyymmdd, pad4, pad2. cbn [String.append].
  rewrite (contains_cons "-" _ _
             (contains_cons "-" _ _
                (contains_cons "-" _ _
                   (contains_cons "-" _ (String "-" tail) (contains_dash_head tail))))).
  rewrite !remove_char_digit by assumption.
  rewrite remove_char_dash. reflexivity.
Qed.

(** The dashed text of a date, stripped of its dashes, is its compact
    text. *)
Lemma to_yyyymmdd_strftime (y m d : Z) :
  0 <= y <= 9999 -> 0 <= m <= 99 -> 0 <= d <= 99 ->
  to_yyyymmdd (strftime (Some "-"%char) y m d) = strftime None y m d.
Proof.
  intros Hy Hm Hd.
  destruct (pad2_digits _ Hm) as (M1 & M2).
  destruct (pad2_digits _ Hd) as (D1 & D2).
  unfold strftime. cbn [sep_text String.append].
  rewrite to_yyyymmdd_year by exact Hy.
  unfold pad2. cbn [String.append].
  rewrite !remove_char_digit by assumption.
  rewrite remove_char_dash.
  rewrite !remove_char_digit by assumption.
  reflexivity.
Qed.

Lemma valid_ymd_day (y m d : Z) : valid_ymd y m d -> 1 <= d <= 31.
Proof.
  intros (Hy & Hm & Hd). unfold days_in_month in Hd.
  destruct (m =? 2); [destruct (is_leap y)|
    destruct ((m =? 4) || (m =? 6) || (m =? 9) || (m =? 11))%bool]; lia.
Qed.

(** X23. The end point and the data client read a well-formed date
    alike.  A calendar date with a four-digit year, written as
    YYYY-MM-DD, is read by [strptime] with the format of
    [generate_predictions] as that date; [get_pv_data_for_dashboard]
    strips its dashes, and [strptime] with the format of
    [validate_dates] reads the stripped text as the same date. *)
Theorem dashed_date_read_alike (y m d : Z) :
  valid_ymd y m d ->
  strptime (Some "-"%char) (strftime (Some "-"%char) y m d) = Ok (of_ymd y m d) /\
  to_yyyymmdd (strftime (Some "-"%char) y m d) = strftime None y m d /\
  strptime None (to_yyyymmdd (strftime (Some "-"%char) y m d)) = Ok (of_ymd y m d).
Proof.
  intros H. pose proof (valid_ymd_day y m d H) as Hd31.
  destruct H as (Hy & Hm & Hd).
  assert (E : to_yyyymmdd (strftime (Some "-"%char) y m d) = strftime None y m d)
    by (apply to_yyyymmdd_strftime; lia).
  split; [|split].
  - apply strptime_strftime; [right; reflexivity|repeat split; lia].
  - exact E.
  - rewrite E. apply strptime_strftime; [left; reflexivity|repeat split; lia].
Qed.

Lemma dashed_date_read_alike_witness :
  strftime (Some "-"%char) 2024 2 29 = "2024-02-29"%string /\
  strptime (Some "-"%char) "2024-02-29" = Ok (of_ymd 2024 2 29) /\
  to_yyyymmdd "2024-02-29" = "20240229"%string /\
  strptime None (to_yyyymmdd "2024-02-29") = Ok (of_ymd 2024 2 29).
Proof.
  split; [reflexivity|].
  apply (dashed_date_read_alike 2024 2 29).
  unfold valid_ymd. vm_compute. repeat split; discriminate.
Defined.

(** X24. A month written with one digit is read as two different dates.
    For the text of a year, [-1-] and a two-digit day [10 * t + k]
    (t from 0 to 2, k from 1 to 9), the end point's [strptime] reads
    day [10 * t + k] of January; after [get_pv_data_for_dashboard] has
    stripped the dashes, the client's [strptime] reads day [k] of month
    [10 + t], which is another day. *)
Theorem short_month_read_differently (y t k : Z) :
  1000 <= y <= 9999 -> 0 <= t <= 2 -> 1 <= k <= 9 ->
  strptime (Some "-"%char) (short_month_text y t k) = Ok (of_ymd y 1 (10 * t + k)) /\
  strptime None (to_yyyymmdd (short_month_text y t k)) = Ok (of_ymd y (10 + t) k) /\
  of_ymd y 1 (10 * t + k) < of_ymd y (10 + t) k.
Proof.
  intros Hy Ht Hk.
  assert (Hy' : 0 <= y <= 9999) by lia.
  assert (Et : t = 0 \/ t = 1 \/ t = 2) by lia.
  assert (Ek : k = 1 \/ k = 2 \/ k = 3 \/ k = 4 \/ k = 5 \/ k = 6 \/ k = 7 \/
               k = 8 \/ k = 9) by lia.
  clear Ht Hk.
  destruct Et as [-> | [-> | ->]];
    destruct Ek as [-> | [-> | [-> | [-> | [-> | [-> | [-> | [-> | ->]]]]]]]];
    (split; [|split]).
  all: unfold short_month_text.
  all: try rewrite to_yyyymmdd_year by exact Hy'.
  all: try (unfold strptime, regex_match; rewrite match_Y_pad4 by exact Hy';
            destruct y as [|p|p]; [lia|reflexivity|lia]).
  all: unfold of_ymd, ymd2ord, days_before_month, us_per_day;
    cbn [days_before_month_table Z.ltb Z.compare Pos.compare Pos.compare_cont andb
         Z.add Z.mul Pos.add Pos.mul Pos.succ];
    destruct (is_leap y); lia.
Qed.

Lemma short_month_read_differently_witness :
  short_month_text 2024 1 1 = "2024-1-11"%string /\
  strptime (Some "-"%char) "2024-1-11" = Ok (of_ymd 2024 1 11) /\
  strptime None (to_yyyymmdd "2024-1-11") = Ok (of_ymd 2024 11 1) /\
  of_ymd 2024 1 11 < of_ymd 2024 11 1.
Proof.
  split; [reflexivity|].
  apply (short_month_read_differently 2024 1 1); lia.
Defined.

End DateMore.

(* ================================================================== *)
(** * The dashboard data source behind the end points *)
(* ================================================================== *)

Module DashboardFacts.

Import Dates Handler Client App Scrape Endpoints DateFormat.
Import Fixtures ClientFixtures AppFixtures MoreFixtures RetryFacts.

Local Open Scope Z_scope.

(** Every exception that leaves [get_pv_data_for_dashboard] is the
    plain [Exception] of its [except] clause. *)
Lemma dashboard_raise_wrapped
      (now_init now : datetime) (t : transport) (parse : parser)
      (to_csv : DataFrame -> pyres unit) (lat lon : cell) (sd ed : string)
      (e : exn) :
  fst (get_pv_data_for_dashboard now_init now t parse to_csv lat lon sd ed) = Raise e ->
  exists cause, e = wrap_failure cause.
Proof.
  unfold get_pv_data_for_dashboard.
  destruct (get_pv_data (Client.init now_init) now t parse lat lon
              (to_yyyymmdd sd) (to_yyyymmdd ed)) as [[df|e0] tr].
  - destruct (to_csv df) as [u|e1]; cbn [fst]; intros H; [discriminate|].
    inversion H. exists e1. reflexivity.
  - cbn [fst]. intros H. inversion H. exists e0. reflexivity.
Qed.

(** What a request that passed the checks of the end point satisfies. *)
Lemma check_request_inl (data : request_data) (lat lon cap : cell) (sd ed : string) :
  check_request data = Ok (inl (lat, lon, cap, sd, ed)) ->
  in_coordinates lat lon = true /\
  exists s e, strptime (Some "-"%char) sd = Ok s /\
              strptime (Some "-"%char) ed = Ok e /\
              s < e /\ delta_days e s <= 365.
Proof.
  unfold check_request. intros H.
  destruct (float_of "latitude" (latitude data)) as [lat0|e]; [|discriminate].
  destruct (float_of "longitude" (longitude data)) as [lon0|e]; [|discriminate].
  destruct (capacity_of (capacity data)) as [cap0|e]; [|discriminate].
  destruct (text_of "start_date" (start_date data)) as [sd0|e]; [|discriminate].
  destruct (text_of "end_date" (end_date data)) as [ed0|e]; [|discriminate].
  cbn [Py.bind] in H.
  destruct (in_coordinates lat0 lon0) eqn:Ec; cbn [negb] in H; [|discriminate].
  destruct (strptime (Some "-"%char) sd0) as [s|e] eqn:Es; [|discriminate].
  destruct (strptime (Some "-"%char) ed0) as [e'|e] eqn:Ee; [|discriminate].
  cbn [Py.bind] in H.
  destruct (e' <=? s) eqn:E1; [discriminate|].
  destruct (365 <? delta_days e' s) eqn:E2; [discriminate|].
  inversion H; subst.
  split; [exact Ec|]. exists s, e'.
  apply Z.leb_gt in E1. apply Z.ltb_ge in E2.
  repeat split; assumption.
Qed.

(** The client's coordinate check and the end point's agree. *)
Lemma validate_coordinates_in (lat lon : cell) :
  validate_coordinates lat lon
  = if in_coordinates lat lon then Ok true
    else Raise (ValueError
                  (if leb (Fin (qz (-90))) lat && leb lat (Fin (qz 90))
                   then "Longitude must be between -180 and 180"
                   else "Latitude must be between -90 and 90")).
Proof.
  unfold validate_coordinates, in_coordinates.
  destruct (leb (Fin (qz (-90))) lat && leb lat (Fin (qz 90)));
    destruct (leb (Fin (qz (-180))) lon && leb lon (Fin (qz 180))); reflexivity.
Qed.

(** The first pass of the loop always makes a request. *)
Lemma retry_loop_first_request (t : transport) (max_retries : Z) (d : Qc)
      (remaining : nat) :
  (1 <= requests_made
          (snd (retry_loop t max_retries d (S remaining) 0)))%nat.
Proof.
  cbn [retry_loop].
  destruct (t 0%nat) as [e|data].
  - destruct (Z.of_nat 0 <? max_retries - 1).
    + destruct (Qc_ltb (d * pow2 0)%Qc q0).
      * unfold requests_made. simpl. lia.
      * destruct (retry_loop t max_retries d remaining 1) as [res tr].
        unfold requests_made. simpl. lia.
    + unfold requests_made. simpl. lia.
  - destruct (has_api_error data); unfold requests_made; simpl; lia.
Qed.

(** The trace of the dashboard call is the trace of [fetch_data]. *)
Lemma dashboard_trace
      (now_init now : datetime) (t : transport) (parse : parser)
      (to_csv : DataFrame -> pyres unit) (lat lon : cell) (sd ed : string) :
  snd (get_pv_data_for_dashboard now_init now t parse to_csv lat lon sd ed)
  = snd (fetch_data (Client.init now_init) now t lat lon
           (to_yyyymmdd sd) (to_yyyymmdd ed) 3 1%Qc).
Proof.
  unfold get_pv_data_for_dashboard, get_pv_data.
  destruct (fetch_data (Client.init now_init) now t lat lon
              (to_yyyymmdd sd) (to_yyyymmdd ed) 3 1%Qc) as [[[raw|]|e] tr];
    cbn [snd]; try reflexivity.
  destruct (parse raw) as [df|e]; [|reflexivity].
  destruct (to_csv df); reflexivity.
Qed.

End DashboardFacts.

Module DashboardClaims.

Import Dates Handler Client App Scrape Endpoints DateFormat.
Import Fixtures ClientFixtures AppFixtures MoreFixtures RetryFacts.
Import DashboardFacts.

Local Open Scope Z_scope.

(** X25. The dashboard data source validates before it asks.  For two
    well-formed dates (YYYY-MM-DD, four-digit year),
    [get_pv_data_for_dashboard] sends between one and three requests
    when the coordinates are in range, the start is not after the end
    and not before 2020-01-01; in every other case it sends nothing and
    raises its plain [Exception]. *)
Theorem dashboard_validates_before_request
        (now_init now : datetime) (t : transport) (parse : parser)
        (to_csv : DataFrame -> pyres unit) (lat lon : cell)
        (ys ms ds ye me de : Z) :
  valid_ymd ys ms ds -> valid_ymd ye me de ->
  let r := get_pv_data_for_dashboard now_init now t parse to_csv lat lon
             (strftime (Some "-"%char) ys ms ds)
             (strftime (Some "-"%char) ye me de) in
  if in_coordinates lat lon
     && (of_ymd ys ms ds <=? of_ymd ye me de)
     && (of_ymd 2020 1 1 <=? of_ymd ys ms ds)
  then (1 <= requests_made (snd r) <= 3)%nat
  else snd r = [] /\
       exists msg,
         fst r = Raise (Exception_
                          (String.append "Failed to fetch NASA POWER data: " msg)).
Proof.
  intros Hs He r. subst r.
  assert (Ps : strptime None (to_yyyymmdd (strftime (Some "-"%char) ys ms ds))
               = Ok (of_ymd ys ms ds)).
  { rewrite DateMore.to_yyyymmdd_strftime.
    - apply DateMore.strptime_strftime; [left; reflexivity|exact Hs].
    - destruct Hs as (H & _). lia.
    - destruct Hs as (_ & H & _). lia.
    - pose proof (DateMore.valid_ymd_day _ _ _ Hs). lia. }
  assert (Pe : strptime None (to_yyyymmdd (strftime (Some "-"%char) ye me de))
               = Ok (of_ymd ye me de)).
  { rewrite DateMore.to_yyyymmdd_strftime.
    - apply DateMore.strptime_strftime; [left; reflexivity|exact He].
    - destruct He as (H & _). lia.
    - destruct He as (_ & H & _). lia.
    - pose proof (DateMore.valid_ymd_day _ _ _ He). lia. }
  destruct (in_coordinates lat lon) eqn:Ec; cbn [andb].
  2:{ unfold get_pv_data_for_dashboard, get_pv_data, fetch_data, build_request_url.
      rewrite validate_coordinates_in, Ec. cbn [Py.bind fst snd].
      split; [reflexivity|]. eexists. reflexivity. }
  destruct (of_ymd ys ms ds <=? of_ymd ye me de) eqn:E1; cbn [andb].
  2:{ unfold get_pv_data_for_dashboard, get_pv_data, fetch_data, build_request_url.
      rewrite validate_coordinates_in, Ec. cbn [Py.bind].
      unfold validate_dates. rewrite Ps, Pe.
      apply Z.leb_gt in E1. apply Z.ltb_lt in E1. rewrite E1.
      cbn [fst snd]. split; [reflexivity|]. eexists. reflexivity. }
  destruct (of_ymd 2020 1 1 <=? of_ymd ys ms ds) eqn:E2.
  2:{ unfold get_pv_data_for_dashboard, get_pv_data, fetch_data, build_request_url.
      rewrite validate_coordinates_in, Ec. cbn [Py.bind].
      unfold validate_dates. rewrite Ps, Pe.
      apply Z.leb_le in E1. apply Z.leb_gt in E2.
      replace (of_ymd ye me de <? of_ymd ys ms ds) with false
        by (symmetry; apply Z.ltb_ge; exact E1).
      replace (of_ymd ys ms ds <? min_date (Client.init now_init)) with true
        by (symmetry; apply Z.ltb_lt; exact E2).
      cbn [fst snd]. split; [reflexivity|]. eexists. reflexivity. }
  rewrite dashboard_trace.
  unfold fetch_data, build_request_url.
  rewrite validate_coordinates_in, Ec. cbn [Py.bind].
  unfold validate_dates. rewrite Ps, Pe.
  apply Z.leb_le in E1. apply Z.leb_le in E2.
  replace (of_ymd ye me de <? of_ymd ys ms ds) with false
    by (symmetry; apply Z.ltb_ge; exact E1).
  replace (of_ymd ys ms ds <? min_date (Client.init now_init)) with false
    by (symmetry; apply Z.ltb_ge; exact E2).
  change (Z.to_nat 3) with 3%nat.
  pose proof (ClientMore.retry_loop_budget t 3 1%Qc 3 0 eq_refl) as [Hb _].
  pose proof (retry_loop_first_request t 3 1%Qc 2) as Hf.
  destruct (retry_loop t 3 1%Qc 3 0) as [res tr].
  cbn [snd] in *.
  rewrite requests_made_app, requests_warnings. simpl. lia.
Qed.

Lemma dashboard_validates_before_request_witness :
  snd (get_pv_data_for_dashboard a_later_day a_later_day always_timeout
         parse_june csv_ok casablanca_lat casablanca_lon
         "2019-06-01" "2019-06-05") = [] /\
  (1 <= requests_made
          (snd (get_pv_data_for_dashboard a_later_day a_later_day always_timeout
                  parse_june csv_ok casablanca_lat casablanca_lon
                  "2023-06-01" "2023-06-03")) <= 3)%nat.
Proof.
  assert (V1 : valid_ymd 2019 6 1)
    by (unfold valid_ymd; vm_compute; repeat split; discriminate).
  assert (V2 : valid_ymd 2019 6 5)
    by (unfold valid_ymd; vm_compute; repeat split; discriminate).
  assert (V3 : valid_ymd 2023 6 1)
    by (unfold valid_ymd; vm_compute; repeat split; discriminate).
  assert (V4 : valid_ymd 2023 6 3)
    by (unfold valid_ymd; vm_compute; repeat split; discriminate).
  pose proof (dashboard_validates_before_request a_later_day a_later_day
                always_timeout parse_june csv_ok casablanca_lat casablanca_lon
                2019 6 1 2019 6 5 V1 V2) as H1.
  pose proof (dashboard_validates_before_request a_later_day a_later_day
                always_timeout parse_june csv_ok casablanca_lat casablanca_lon
                2023 6 1 2023 6 3 V3 V4) as H2.
  cbv zeta in H1, H2.
  replace (in_coordinates casablanca_lat casablanca_lon
           && (of_ymd 2019 6 1 <=? of_ymd 2019 6 5)
           && (of_ymd 2020 1 1 <=? of_ymd 2019 6 1))%bool
    with false in H1 by (vm_compute; reflexivity).
  replace (in_coordinates casablanca_lat casablanca_lon
           && (of_ymd 2023 6 1 <=? of_ymd 2023 6 3)
           && (of_ymd 2020 1 1 <=? of_ymd 2023 6 1))%bool
    with true in H2 by (vm_compute; reflexivity).
  split; [exact (proj1 H1)|exact H2].
Defined.

(** X26. A failure of the data source is a server error.  When a loaded
    handler serves a request that passed the checks of
    [generate_predictions] and [get_pv_data_for_dashboard] raises, the
    end point answers 500 with the message of the wrapped exception,
    after one call of the data source and none of the model; the
    [ValueError]s of the client's own validation never reach the 400
    branch. *)
Theorem dashboard_failure_is_500
        (h : PVModelHandler) (now_init now : datetime) (t : transport)
        (parse : parser) (to_csv : DataFrame -> pyres unit)
        (data : request_data) (lat lon cap : cell) (sd ed : string) (e : exn) :
  is_loaded h = true ->
  check_request data = Ok (inl (lat, lon, cap, sd, ed)) ->
  fst (get_pv_data_for_dashboard now_init now t parse to_csv lat lon sd ed) = Raise e ->
  generate_predictions (Some h) (dashboard_source now_init now t parse to_csv)
                       (Some data)
  = (mkResponse 500
       (ErrorBody (String.append "Prediction generation failed: " (exn_str e))),
     [EvFetch lat lon sd ed]) /\
  exists cause,
    exn_str e = String.append "Failed to fetch NASA POWER data: " (exn_str cause).
Proof.
  intros Hl Hc Hr.
  destruct (dashboard_raise_wrapped _ _ _ _ _ _ _ _ _ _ Hr) as [cause ->].
  split; [|exists cause; reflexivity].
  unfold generate_predictions. rewrite Hl. cbn [negb].
  unfold generate_body. rewrite Hc. unfold serve, dashboard_source.
  rewrite Hr. reflexivity.
Qed.

Lemma dashboard_failure_is_500_witness :
  generate_predictions (Some stub5)
    (dashboard_source a_later_day a_later_day always_timeout parse_june csv_ok)
    (Some early_request)
  = (mkResponse 500
       (ErrorBody "Prediction generation failed: Failed to fetch NASA POWER data: GEOS-IT data starts from 2020-01-01"),
     [EvFetch casablanca_lat casablanca_lon "2019-06-01" "2019-06-05"]).
Proof.
  assert (Hc : check_request early_request
               = Ok (inl (casablanca_lat, casablanca_lon, Fin (qz 1),
                          "2019-06-01"%string, "2019-06-05"%string)))
    by (vm_compute; reflexivity).
  assert (Hr : fst (get_pv_data_for_dashboard a_later_day a_later_day
                      always_timeout parse_june csv_ok casablanca_lat
                      casablanca_lon "2019-06-01" "2019-06-05")
               = Raise (wrap_failure
                          (ValueError "GEOS-IT data starts from 2020-01-01")))
    by (vm_compute; reflexivity).
  exact (proj1 (dashboard_failure_is_500 stub5 a_later_day a_later_day
                  always_timeout parse_june csv_ok early_request
                  casablanca_lat casablanca_lon (Fin (qz 1))
                  "2019-06-01" "2019-06-05"
                  (wrap_failure (ValueError "GEOS-IT data starts from 2020-01-01"))
                  eq_refl Hc Hr)).
Defined.

(** X27. What [generate_predictions] does outside itself is guarded.  It
    calls the data source at most once, and only for a loaded handler,
    coordinates in range and two dates that parse with the start before
    the end and at most 365 days apart; it calls the model at most
    once, and only on a non-empty table that the data source
    returned. *)
Theorem predictions_effects_guarded
        (mh : option PVModelHandler) (fetch : data_source)
        (data : option request_data) :
  snd (generate_predictions mh fetch data) = [] \/
  exists h lat lon sd ed s e,
    mh = Some h /\ is_loaded h = true /\
    in_coordinates lat lon = true /\
    strptime (Some "-"%char) sd = Ok s /\ strptime (Some "-"%char) ed = Ok e /\
    s < e /\ delta_days e s <= 365 /\
    (snd (generate_predictions mh fetch data) = [EvFetch lat lon sd ed] \/
     exists df, fetch lat lon sd ed = Ok df /\ Frame.empty df = false /\
       snd (generate_predictions mh fetch data)
       = [EvFetch lat lon sd ed; EvPredict df]).
Proof.
  unfold generate_predictions.
  destruct mh as [h|]; [|left; reflexivity].
  destruct (is_loaded h) eqn:Hl; cbn [negb]; [|left; reflexivity].
  unfold generate_body.
  destruct data as [data|]; [|left; reflexivity].
  destruct (check_request data) as [[[[[[lat lon] cap] sd] ed]|resp]|e0] eqn:Hc;
    [|left; reflexivity|left; destruct (is_ValueError e0); reflexivity].
  destruct (check_request_inl data lat lon cap sd ed Hc)
    as (Hin & s & e & Hs & He & Hlt & Hd).
  right. exists h, lat, lon, sd, ed, s, e.
  repeat (split; [first [reflexivity|assumption]|]).
  unfold serve.
  destruct (fetch lat lon sd ed) as [df|ex] eqn:Hf.
  - destruct (Frame.empty df) eqn:Hem.
    + left. reflexivity.
    + right. exists df. split; [reflexivity|]. split; [exact Hem|].
      destruct (predict_call h df [("capacity", cap)]) as [ps|ex];
        [reflexivity|destruct (is_ValueError ex); reflexivity].
  - left. destruct (is_ValueError ex); reflexivity.
Qed.

(** X28. [validate_location] answers 200 exactly for two numeric fields
    in range, whatever the probe found, and it starts the probe only
    then, once, with those coordinates; every other body (a missing
    field, text that is no number, NaN, a value out of range) is
    answered 400 with an error message and no probe. *)
Theorem validate_location_cases
        (probe_location : cell -> cell -> availability)
        (lat_field lon_field : field) :
  (forall lat lon,
     lat_field = FNum lat -> lon_field = FNum lon ->
     in_coordinates lat lon = true ->
     validate_location probe_location lat_field lon_field
     = (mkLoc 200 (LocAvailability (probe_location lat lon)),
        [EvProbe lat lon])) /\
  ((forall lat lon,
      lat_field = FNum lat -> lon_field = FNum lon ->
      in_coordinates lat lon = false) ->
   loc_status (fst (validate_location probe_location lat_field lon_field)) = 400 /\
   snd (validate_location probe_location lat_field lon_field) = [] /\
   exists msg,
     loc_body (fst (validate_location probe_location lat_field lon_field))
     = LocError msg).
Proof.
  unfold validate_location, in_coordinates. split.
  - intros lat lon -> -> Hin. cbn [float_of Py.bind].
    apply andb_true_iff in Hin. destruct Hin as [H1 H2].
    rewrite H1, H2. reflexivity.
  - intros Hout.
    destruct lat_field as [|lat| |];
      try (cbn [float_of Py.bind fst snd loc_status loc_body];
           repeat split; eexists; reflexivity).
    destruct lon_field as [|lon| |];
      try (cbn [float_of Py.bind fst snd loc_status loc_body];
           repeat split; eexists; reflexivity).
    specialize (Hout lat lon eq_refl eq_refl).
    cbn [float_of Py.bind].
    destruct (leb (Fin (qz (-90))) lat && leb lat (Fin (qz 90)));
      cbn [negb fst snd loc_status loc_body];
      [|repeat split; eexists; reflexivity].
    cbn [andb] in Hout. rewrite Hout.
    cbn [negb fst snd loc_status loc_body].
    repeat split; eexists; reflexivity.
Qed.

Lemma validate_location_cases_witness :
  validate_location probe_yes (FNum casablanca_lat) (FNum casablanca_lon)
  = (mkLoc 200 (LocAvailability (probe_yes casablanca_lat casablanca_lon)),
     [EvProbe casablanca_lat casablanca_lon]) /\
  loc_status (fst (validate_location probe_yes (FNum NaN) (FNum casablanca_lon)))
  = 400.
Proof.
  assert (Hin : in_coordinates casablanca_lat casablanca_lon = true)
    by (vm_compute; reflexivity).
  split.
  - exact (proj1 (validate_location_cases probe_yes (FNum casablanca_lat)
                    (FNum casablanca_lon))
                 casablanca_lat casablanca_lon eq_refl eq_refl Hin).
  - refine (proj1 (proj2 (validate_location_cases probe_yes (FNum NaN)
                            (FNum casablanca_lon)) _)).
    intros lat lon H1 H2. inversion H1. reflexivity.
Defined.

(** X29. The answer of the reload end point tells the state it leaves.
    It answers 200 or 500; 200 exactly when the global handler it
    leaves is loaded; and after a 500 the predictions end point answers
    500 "Model not loaded" to every request without calling the data
    source, and [/health] reports [model_loaded] false. *)
Theorem reload_answer_matches_state
        (fs : file_state) (mh : option PVModelHandler) :
  let mh' := fst (App.reload_model fs mh) in
  let resp := snd (App.reload_model fs mh) in
  (status resp = 200 \/ status resp = 500) /\
  (status resp = 200 <-> exists h, mh' = Some h /\ is_loaded h = true) /\
  (status resp = 500 ->
   model_loaded (health_check mh') = false /\
   forall fetch data,
     generate_predictions mh' fetch data
     = (mkResponse 500 (ErrorBody "Model not loaded"), [])).
Proof.
  unfold App.reload_model, App.load_model, Handler.reload_model, Handler.init.
  destruct mh as [h|].
  - pose proof (LifecycleFacts.load_model_outcome fs h) as H.
    destruct (Handler.load_model fs h) as [h' [u|e]]; cbn [fst snd].
    + destruct H as [Hl _]. rewrite Hl. cbn [status].
      split; [left; reflexivity|]. split.
      * split; [intros _; exists h'; split; [reflexivity|exact Hl]|reflexivity].
      * discriminate.
    + destruct H as [Hl _]. cbn [status].
      split; [right; reflexivity|]. split.
      * split; [discriminate|]. intros (h0 & E & Hl0).
        inversion E; subst. congruence.
      * intros _. split; [simpl; exact Hl|].
        intros fetch data. unfold generate_predictions. rewrite Hl. reflexivity.
  - pose proof (LifecycleFacts.load_model_outcome fs
                  (mkHandler "final_pv_model.pkl" None None false None)) as H.
    destruct (Handler.load_model fs
                (mkHandler "final_pv_model.pkl" None None false None))
      as [h' [u|e]]; cbn [fst snd].
    + destruct H as [Hl _]. rewrite Hl. cbn [status].
      split; [left; reflexivity|]. split.
      * split; [intros _; exists h'; split; [reflexivity|exact Hl]|reflexivity].
      * discriminate.
    + cbn [status]. split; [right; reflexivity|]. split.
      * split; [discriminate|]. intros (h0 & E & _). discriminate.
      * intros _. split; reflexivity.
Qed.

Lemma reload_answer_matches_state_witness :
  generate_predictions (fst (App.reload_model NoFile (Some stub5)))
                       june_source (Some scenario_request)
  = (mkResponse 500 (ErrorBody "Model not loaded"), []).
Proof.
  exact (proj2 (proj2 (proj2 (reload_answer_matches_state NoFile (Some stub5)))
                      eq_refl)
               june_source (Some scenario_request)).
Defined.

End DashboardClaims.

(* ================================================================== *)
(** * The name of the exported file *)
(* ================================================================== *)

Module ExportClaims.

Import Endpoints.

Lemma in_string_append (c : ascii) (s1 s2 : string) :
  In c (list_ascii_of_string (String.append s1 s2)) <->
  In c (list_ascii_of_string s1) \/ In c (list_ascii_of_string s2).
Proof.
  induction s1 as [|a r IH]; simpl.
  - split; [right; assumption|intros [[]|H]; exact H].
  - rewrite IH. tauto.
Qed.

Lemma replace1_chars (o new : ascii) (s : string) (c : ascii) :
  In c (list_ascii_of_string (replace1 o new s)) ->
  c = new \/ (c <> o /\ In c (list_ascii_of_string s)).
Proof.
  induction s as [|a r IH]; simpl; [intros []|].
  intros [H|H].
  - destruct (Ascii.eqb a o) eqn:E.
    + left. symmetry. exact H.
    + right. apply Ascii.eqb_neq in E. subst c. split; [exact E|left; reflexivity].
  - destruct (IH H) as [Hn|[Ho Hin]]; [left; exact Hn|right].
    split; [exact Ho|right; exact Hin].
Qed.

Lemma replace1_clean (o new : ascii) (s : string) :
  ~ In o (list_ascii_of_string s) -> replace1 o new s = s.
Proof.
  induction s as [|a r IH]; simpl; [reflexivity|].
  intros H. destruct (Ascii.eqb a o) eqn:E.
  - apply Ascii.eqb_eq in E. exfalso. apply H. left. exact E.
  - rewrite IH; [reflexivity|]. intros Hin. apply H. right. exact Hin.
Qed.

Lemma replace2_clean (o1 o2 new : ascii) (s : string) :
  ~ In o2 (list_ascii_of_string s) -> replace2 o1 o2 new s = s.
Proof.
  induction s as [|a r IH]; [reflexivity|].
  intros H. cbn [replace2].
  assert (Hr : ~ In o2 (list_ascii_of_string r))
    by (intros Hin; apply H; right; exact Hin).
  destruct r as [|b r']; [reflexivity|].
  assert (Eb : Ascii.eqb b o2 = false).
  { apply Ascii.eqb_neq. intros ->. apply Hr. left. reflexivity. }
  rewrite Eb, andb_false_r. rewrite (IH Hr). reflexivity.
Qed.

Lemma replace2_other (o1 o2 new a : ascii) (r : string) :
  Ascii.eqb a o1 = false ->
  replace2 o1 o2 new (String a r) = String a (replace2 o1 o2 new r).
Proof.
  intros E. cbn [replace2]. rewrite E. cbn [andb].
  destruct r; reflexivity.
Qed.

(** X30. The name of the exported file.  Whatever the three texts taken
    from the request are, the name built by [export_data] begins with
    [pv_predictions_] and contains no space; and when the texts contain
    no space the two replacements change nothing: the name is the plain
    concatenation. *)
Theorem export_filename_shape (location start_date end_date : string) :
  (exists rest,
     export_filename location start_date end_date
     = String.append "pv_predictions_" rest) /\
  ~ In " "%char (list_ascii_of_string
                   (export_filename location start_date end_date)) /\
  (~ In " "%char (list_ascii_of_string location) ->
   ~ In " "%char (list_ascii_of_string start_date) ->
   ~ In " "%char (list_ascii_of_string end_date) ->
   export_filename location start_date end_date
   = String.append "pv_predictions_"
       (String.append location
          (String.append "_"
             (String.append start_date
                (String.append "_" (String.append end_date ".xlsx")))))).
Proof.
  unfold export_filename. split; [|split].
  - cbn [String.append].
    rewrite !replace2_other by reflexivity.
    cbn [replace1 Ascii.eqb Bool.eqb]. eexists. reflexivity.
  - intros H. apply replace1_chars in H.
    destruct H as [H|[H _]]; [discriminate H|apply H; reflexivity].
  - intros Hl Hs He.
    assert (Hraw : ~ In " "%char
                     (list_ascii_of_string
                        (String.append "pv_predictions_"
                           (String.append location
                              (String.append "_"
                                 (String.append start_date
                                    (String.append "_"
                                       (String.append end_date ".xlsx")))))))).
    { rewrite !in_string_append. simpl.
      intros [H|[H|[H|[H|[H|[H|H]]]]]].
      - repeat (destruct H as [H|H]; [discriminate H|]). exact H.
      - exact (Hl H).
      - repeat (destruct H as [H|H]; [discriminate H|]). exact H.
      - exact (Hs H).
      - repeat (destruct H as [H|H]; [discriminate H|]). exact H.
      - exact (He H).
      - repeat (destruct H as [H|H]; [discriminate H|]). exact H. }
    rewrite (replace2_clean _ _ _ _ Hraw). apply replace1_clean. exact Hraw.
Qed.

Lemma export_filename_shape_witness :
  export_filename "33.5731,-7.5898" "2023-06-01" "2023-06-03"
  = "pv_predictions_33.5731,-7.5898_2023-06-01_2023-06-03.xlsx"%string.
Proof.
  refine (proj2 (proj2 (export_filename_shape "33.5731,-7.5898" "2023-06-01"
                          "2023-06-03")) _ _ _);
    simpl; intros H;
    repeat (destruct H as [H|H]; [discriminate H|]); exact H.
Defined.

End ExportClaims.
